(** * METI dashboard: the scoring and normalisation engine of [app.py]

    The engine turns per-asset, per-timeframe percentage changes and four
    geopolitical inputs into one tension index and a tension level.

    Python's [float] is read through an interface [PyNum] with two
    interpretations.  [RNum] reads the arithmetic in the exact reals: this
    is the reading of the specification, whose quantities are "real", and
    the one all bounds and monotonicity statements are proved in; rounding
    is not part of it.  [B64Num] reads the same program text in IEEE 754
    binary64 (round to nearest even), which is what the interpreter runs;
    it is executable and is used to evaluate the program at the
    specification's example points, and at the points where rounding
    separates the two readings.  Where the two readings part, the
    statements proved in the reals are worded for both: bounds that are not
    strict, and a margin where a double can fall on the other side of an
    exact threshold. *)

From Stdlib Require Import ZArith Reals Lra Floats.SpecFloat.
From stdpp Require Import base option list strings gmap.

Local Open Scope Z_scope.
Local Open Scope string_scope.

(** * Numbers *)

(** The operations [app.py] uses on numbers.  [of_int] is the implicit
    conversion of a Python [int] in mixed arithmetic. *)
Class PyNum (F : Type) := {
  of_int : Z -> F;
  fadd : F -> F -> F;
  fsub : F -> F -> F;
  fmul : F -> F -> F;
  fdiv : F -> F -> F;
  fabs : F -> F;
  log1p : F -> F;
  feqb : F -> F -> bool;
  fltb : F -> F -> bool;
  fleb : F -> F -> bool
}.

Declare Scope py_scope.
Delimit Scope py_scope with py.
Infix "+" := fadd : py_scope.
Infix "-" := fsub : py_scope.
Infix "*" := fmul : py_scope.
Infix "/" := fdiv : py_scope.
Infix "==?" := feqb (at level 70, no associativity) : py_scope.
Infix "<?" := fltb : py_scope.
Infix "<=?" := fleb : py_scope.

Section Numbers.
Context {F : Type} `{PyNum F}.

(** A decimal literal [n/d], such as [8.75 = 875/100]: the quotient of two
    exactly represented integers, which in binary64 is the double nearest
    to the decimal, as the Python parser produces. *)
Definition dec (n d : Z) : F := (of_int n / of_int d)%py.

(** [min(a, b)] and [max(a, b)] of two arguments: the first one is kept
    unless the second is strictly smaller (resp. larger). *)
Definition py_min (a b : F) : F := if (b <? a)%py then b else a.
Definition py_max (a b : F) : F := if (a <? b)%py then b else a.

(** [sum(xs)]: left to right, starting from the integer 0. *)
Definition py_sum (xs : list F) : F := fold_left fadd xs (of_int 0).
End Numbers.

(** ** Exact reals

    [math.log1p x] is [ln (1 + x)]; the program calls it on [abs(raw) * 2]
    and on 20 only, inside its domain.  Its divisors are the constant 10,
    [log1p(20)] and a [max_val] tested against zero first. *)

Definition Reqb (x y : R) : bool := if Req_dec_T x y then true else false.
Definition Rltb (x y : R) : bool := if Rlt_dec x y then true else false.
Definition Rleb (x y : R) : bool := if Rle_dec x y then true else false.

#[export] Instance RNum : PyNum R := {|
  of_int := IZR;
  fadd := Rplus;
  fsub := Rminus;
  fmul := Rmult;
  fdiv := Rdiv;
  fabs := Rabs;
  log1p := fun x => ln (1 + x);
  feqb := Reqb;
  fltb := Rltb;
  fleb := Rleb
|}.

(** ** IEEE 754 binary64 *)

Module B64.
Definition prec : Z := 53.
Definition emax : Z := 1024.
Definition of_Z (z : Z) : spec_float := binary_normalize prec emax z 0 false.
Definition add := SFadd prec emax.
Definition sub := SFsub prec emax.
Definition mul := SFmul prec emax.
Definition div := SFdiv prec emax.
End B64.

(** * The program *)

(** An entry of [ASSETS]; the emoji, colour and tooltip are display only. *)
Record asset_info (F : Type) := AssetInfo {
  name : string;
  weight : F;
  direction : Z
}.
Arguments AssetInfo {F} _ _ _.
Arguments name {F} _.
Arguments weight {F} _.
Arguments direction {F} _.

(** A value of [all_data]: a dict that may hold the keys ["data"] (timeframe
    to percentage change) and ["price"]. *)
Record asset_entry (F : Type) := AssetEntry {
  entry_data : option (gmap string F);
  entry_price : option F
}.
Arguments AssetEntry {F} _ _.
Arguments entry_data {F} _.
Arguments entry_price {F} _.

(** The result of one pass of the script's "CALCULATIONS" block. *)
Record tension (F : Type) := Tension {
  t_market_raw : F;
  t_market_norm : F;
  t_geo_score : F;
  t_final_index : F;
  t_level_text : string;
  t_level_color : string
}.
Arguments Tension {F} _ _ _ _ _ _.
Arguments t_market_raw {F} _.
Arguments t_market_norm {F} _.
Arguments t_geo_score {F} _.
Arguments t_final_index {F} _.
Arguments t_level_text {F} _.
Arguments t_level_color {F} _.

Section Program.
Context {F : Type} `{PyNum F}.
Local Open Scope py_scope.

Definition DEFAULT_CARRIERS : Z := 2.
Definition DEFAULT_US_MILITARY : string := "Extreme".
Definition DEFAULT_IDF_ALERT : string := "High".
Definition DEFAULT_SENTIMENT : F := dec 85 10.

(** Dicts are iterated in insertion order: association lists. *)
Definition ASSETS : list (string * asset_info F) :=
  [ ("CL=F", AssetInfo "Crude Oil" (dec 30 100) 1);
    ("GC=F", AssetInfo "Gold" (dec 25 100) 1);
    ("BTC-USD", AssetInfo "Bitcoin" (dec 18 100) (-1));
    ("LMT", AssetInfo "Lockheed Martin" (dec 8 100) 1);
    ("RTX", AssetInfo "Raytheon" (dec 7 100) 1);
    ("^VIX", AssetInfo "VIX Fear Index" (dec 12 100) 1) ].

Definition TIMEFRAME_WEIGHTS : list (string * F) :=
  [ ("1h", dec 10 100); ("4h", dec 30 100);
    ("1d", dec 40 100); ("1wk", dec 20 100) ].

(** [all_data.get(ticker, {}).get("data", {})] *)
Definition get_asset_data (all_data : gmap string (asset_entry F))
    (ticker : string) : gmap string F :=
  let entry := default (AssetEntry None None) (all_data !! ticker) in
  default ∅ (entry_data entry).

(** The generator summed for one asset; [TIMEFRAME_WEIGHTS[tf]] for [tf]
    ranging over the keys of [TIMEFRAME_WEIGHTS] is the paired weight. *)
Definition weighted_terms (asset_data : gmap string F)
    (info : asset_info F) : list F :=
  map (fun '(tf, w) =>
         default (of_int 0) (asset_data !! tf) * of_int (direction info) * w)
      TIMEFRAME_WEIGHTS.

Definition calculate_market_raw (all_data : gmap string (asset_entry F)) : F :=
  fold_left
    (fun total '(ticker, info) =>
       let asset_data := get_asset_data all_data ticker in
       let weighted := py_sum (weighted_terms asset_data info) in
       total + weighted * weight info)
    ASSETS (of_int 0).

Definition normalize_market (raw : F) : F :=
  if of_int 0 <=? raw then
    py_min (of_int 100) (of_int 25 + (raw / of_int 10) * of_int 75)
  else
    let decay := (log1p (fabs raw * of_int 2) / log1p (of_int 20)) * of_int 25 in
    py_max (of_int 0) (of_int 25 - decay).

Definition military_map : gmap string Z :=
  list_to_map [("Low", 0); ("Moderate", 15); ("High", 25);
               ("Extreme", 32); ("Unprecedented", 40)].

Definition idf_map : gmap string Z :=
  list_to_map [("Low", 0); ("Moderate", 8); ("High", 15)].

(** The four local variables of [calculate_geo_score]. *)
Definition carrier_score (carriers : Z) : F :=
  of_int (Z.min carriers 4) * dec 875 100.
Definition military_score (us_military : string) : Z :=
  default 25 (military_map !! us_military).
Definition idf_score (idf_alert : string) : Z :=
  default 8 (idf_map !! idf_alert).
Definition sentiment_score (sentiment : F) : F :=
  (sentiment / of_int 10) * of_int 10.

Definition calculate_geo_score (carriers : Z) (us_military idf_alert : string)
    (sentiment : F) : F :=
  carrier_score carriers + of_int (military_score us_military)
    + of_int (idf_score idf_alert) + sentiment_score sentiment.

(** Division by zero raises [ZeroDivisionError]: [None]. *)
Definition get_progress_color (value max_val : F) : option string :=
  if max_val ==? of_int 0 then None
  else
    let norm := value / max_val in
    Some (if norm <? dec 3 10 then "#10b981"
          else if norm <? dec 6 10 then "#facc15"
          else if norm <? dec 85 100 then "#fb923c"
          else "#ef4444").

Definition final_index (market_norm geo_score : F) : F :=
  dec 7 10 * market_norm + dec 3 10 * geo_score.

(** [level_text, level_color = ...] *)
Definition level (final_index : F) : string * string :=
  if final_index <? of_int 30 then ("🟢 Low Tension", "#10b981")
  else if final_index <? of_int 60 then ("🟡 Moderate Tension", "#facc15")
  else if final_index <? of_int 80 then ("🟠 Elevated Tension", "#fb923c")
  else ("🔴 High Tension", "#ef4444").

Definition level_text (final_index : F) : string := fst (level final_index).
Definition level_color (final_index : F) : string := snd (level final_index).

(** The "CALCULATIONS" block of the script. *)
Definition calculations (all_data : gmap string (asset_entry F))
    (carriers : Z) (us_military idf_alert : string) (sentiment : F) : tension F :=
  let market_raw := calculate_market_raw all_data in
  let market_norm := normalize_market market_raw in
  let geo_score := calculate_geo_score carriers us_military idf_alert sentiment in
  let final := final_index market_norm geo_score in
  Tension market_raw market_norm geo_score final
          (level_text final) (level_color final).
End Program.

(** * The data fetch and the page *)

(** What [get_all_asset_data] keeps between two timeframes: the [data]
    dict, [current_price], and the local [end_p] once it has been bound. *)
Record fetch_state (F : Type) := FetchState {
  fs_data : gmap string F;
  fs_current_price : F;
  fs_end_p : option F
}.
Arguments FetchState {F} _ _ _.
Arguments fs_data {F} _.
Arguments fs_current_price {F} _.
Arguments fs_end_p {F} _.

(** A value held by [st.session_state]. *)
Inductive session_value (F : Type) :=
| SInt (z : Z)
| SStr (s : string)
| SFloat (x : F).
Arguments SInt {F} _.
Arguments SStr {F} _.
Arguments SFloat {F} _.

(** [series.iloc[i]]: a negative position counts from the end; a position
    outside the series raises [IndexError], here [None]. *)
Definition iloc {A : Type} (series : list A) (i : Z) : option A :=
  let n := Z.of_nat (length series) in
  let j := if Z.ltb i 0 then Z.add n i else i in
  if Z.leb 0 j && Z.ltb j n then series !! Z.to_nat j else None.

(** The keys the "Reset to Current Reality" button drops. *)
Definition reset_keys : list string :=
  ["carriers"; "us_military"; "idf_alert"; "sentiment"; "tf"].

(** [for key in [...]: if key in st.session_state: del st.session_state[key]] *)
Definition reset {V : Type} (session_state : gmap string V) : gmap string V :=
  fold_left
    (fun state key =>
       if bool_decide (is_Some (state !! key)) then delete key state else state)
    reset_keys session_state.

Section Page.
Context {F : Type} `{PyNum F}.
Local Open Scope py_scope.

(** [start_idx] of the branch taken for [tf]. *)
Definition start_idx (tf : string) : Z :=
  if String.eqb tf "1h" then -12
  else if String.eqb tf "4h" then -16
  else if String.eqb tf "1d" then -24
  else -5.

(** [if current_price == 0.0 and 'end_p' in locals(): current_price = float(end_p)] *)
Definition update_price (current_price : F) (end_p : option F) : F :=
  match end_p with
  | Some price => if current_price ==? of_int 0 then price else current_price
  | None => current_price
  end.

(** One turn of the loop of [get_all_asset_data].  [df] is the ["Close"]
    column of the downloaded frame, [None] when the download or the access
    to the column raises.  Every exception of the [try] body ends in
    [data[tf] = 0.0]: the [IndexError] of a series shorter than the
    look-back and the [ZeroDivisionError] of a start price of zero, the
    latter after [end_p] has been bound. *)
Definition fetch_timeframe (df : option (list F)) (tf : string)
    (st : fetch_state F) : fetch_state F :=
  let except end_p :=
    FetchState (<[tf := of_int 0]> (fs_data st)) (fs_current_price st) end_p in
  match df with
  | None => except (fs_end_p st)
  | Some close =>
      if Z.leb 5 (Z.of_nat (length close)) then
        match iloc close (start_idx tf) with
        | None => except (fs_end_p st)
        | Some start_p =>
            match iloc close (-1) with
            | None => except (fs_end_p st)
            | Some end_p =>
                if start_p ==? of_int 0 then except (Some end_p)
                else
                  let change := ((end_p - start_p) / start_p) * of_int 100 in
                  FetchState (<[tf := change]> (fs_data st))
                             (update_price (fs_current_price st) (Some end_p))
                             (Some end_p)
            end
        end
      else
        FetchState (<[tf := of_int 0]> (fs_data st))
                   (update_price (fs_current_price st) (fs_end_p st))
                   (fs_end_p st)
  end.

(** [yf_download ticker tf] stands for the call of [yf.download] made for
    that ticker in the branch of [tf].  The cache in front of the function
    is not modelled: one pass calls it once per ticker. *)
Definition get_all_asset_data (yf_download : string -> string -> option (list F))
    (ticker : string) : gmap string F * F :=
  let st :=
    fold_left (fun st '(tf, _) => fetch_timeframe (yf_download ticker tf) tf st)
              TIMEFRAME_WEIGHTS (FetchState ∅ (of_int 0) None) in
  (fs_data st, fs_current_price st).

(** [all_data = {}; for ticker in ASSETS: ...] *)
Definition fetch_all_data (yf_download : string -> string -> option (list F))
    : gmap string (asset_entry F) :=
  fold_left
    (fun all_data '(ticker, _) =>
       let '(d, p) := get_all_asset_data yf_download ticker in
       <[ticker := AssetEntry (Some d) (Some p)]> all_data)
    ASSETS ∅.

(** [asset_data.get(tf, 0.0)] for the [tf] read from the session state: a
    value that is not a string equals no key of the dict. *)
Definition get_change (data : gmap string F) (tf : session_value F) : F :=
  match tf with
  | SStr key => default (of_int 0) (data !! key)
  | _ => of_int 0
  end.

(** The figure of a market card,
    [all_data[ticker]["data"].get(tf, 0.0) * info["direction"]]; the two
    subscripts raise [KeyError] on a missing key, here [None]. *)
Definition card_change (all_data : gmap string (asset_entry F))
    (ticker : string) (info : asset_info F) (tf : session_value F) : option F :=
  match all_data !! ticker with
  | Some entry =>
      match entry_data entry with
      | Some data => Some (get_change data tf * of_int (direction info))
      | None => None
      end
  | None => None
  end.

Definition card_color (change : F) : string :=
  if of_int 0 <=? change then "#10b981" else "#ef4444".

Definition card_arrow (change : F) : string :=
  if of_int 0 <=? change then "▲" else "▼".

(** [tf = st.session_state.get("tf", "1d")] *)
Definition selected_tf (session_state : gmap string (session_value F))
    : session_value F :=
  default (SStr "1d") (session_state !! "tf").

(** [st.session_state.tf = key], the effect of a timeframe button. *)
Definition select_tf (key : string)
    (session_state : gmap string (session_value F))
    : gmap string (session_value F) :=
  <["tf" := SStr key]> session_state.

Definition timeframe_buttons : list (string * string) :=
  [("1h", "1 Hour"); ("4h", "4 Hours"); ("1d", "1 Day"); ("1wk", "1 Week")].

(** [type="primary" if tf == key else "secondary"] *)
Definition button_type (tf : session_value F) (key : string) : string :=
  match tf with
  | SStr s => if String.eqb s key then "primary" else "secondary"
  | _ => "secondary"
  end.

(** The rows of the "Geopolitical Contribution" panel: title, score and
    maximum.  The two inline dicts are those of [calculate_geo_score]. *)
Definition geo_rows (carriers : Z) (us_military idf_alert : string)
    (sentiment : F) : list (string * F * F) :=
  [ ("US Carriers", of_int (Z.min carriers 4) * dec 875 100, of_int 35);
    ("US Military", of_int (default 25%Z (military_map !! us_military)), of_int 40);
    ("IDF Alert", of_int (default 8%Z (idf_map !! idf_alert)), of_int 15);
    ("News/Social", sentiment, of_int 10) ].

(** [min((score_val/maxv)*100, 100)], the width of the bar in percent. *)
Definition bar_width (score_val maxv : F) : F :=
  py_min ((score_val / maxv) * of_int 100) (of_int 100).

(** The colour and the bar of one row; [score_val] is [score], a number in
    every row.  [None] when [get_progress_color] raises. *)
Definition geo_card (score maxv : F) : option (string * F) :=
  match get_progress_color score maxv with
  | Some color => Some (color, bar_width score maxv)
  | None => None
  end.

(** The ["steps"] of the gauge: range and colour. *)
Definition gauge_steps : list (F * F * string) :=
  [ (of_int 0, of_int 30, "rgba(16,185,129,0.55)");
    (of_int 30, of_int 60, "rgba(250,204,21,0.55)");
    (of_int 60, of_int 80, "rgba(249,115,22,0.55)");
    (of_int 80, of_int 100, "rgba(239,68,68,0.65)") ].
End Page.

(** * Vocabulary of the statements *)

Local Open Scope R_scope.

Definition military_levels : list string :=
  ["Low"; "Moderate"; "High"; "Extreme"; "Unprecedented"].
Definition alert_levels : list string := ["Low"; "Moderate"; "High"].

(** The keys of [ASSETS] and of [TIMEFRAME_WEIGHTS]. *)
Definition tickers : list string :=
  ["CL=F"; "GC=F"; "BTC-USD"; "LMT"; "RTX"; "^VIX"].
Definition timeframes : list string := ["1h"; "4h"; "1d"; "1wk"].

(** The change recorded for an instrument and a timeframe, if any: the
    instrument may be absent, its entry may lack ["data"], and its data may
    lack the timeframe. *)
Definition observed {F : Type} (all_data : gmap string (asset_entry F))
    (ticker tf : string) : option F :=
  match all_data !! ticker with
  | Some entry =>
      match entry_data entry with
      | Some data => data !! tf
      | None => None
      end
  | None => None
  end.

(** A snapshot with every gap filled: each instrument of [ASSETS] gets an
    entry with all four timeframes, the recorded change where there is one
    and 0.0 elsewhere. *)
Definition fill_gaps {F : Type} `{PyNum F}
    (all_data : gmap string (asset_entry F)) : gmap string (asset_entry F) :=
  list_to_map
    (map (fun ticker =>
            (ticker,
             AssetEntry
               (Some (list_to_map
                        (map (fun tf =>
                                (tf, default (of_int 0) (observed all_data ticker tf)))
                             timeframes)))
               (all_data !! ticker ≫= entry_price)))
         tickers).

(** The flat market: every instrument present, every change 0.0. *)
Definition flat_market {F : Type} `{PyNum F} : gmap string (asset_entry F) :=
  fill_gaps ∅.

(** Only crude oil answered, and without its weekly change. *)
Definition partial_data : gmap string (asset_entry R) :=
  {[ "CL=F" := AssetEntry (Some (list_to_map [("1h", 1); ("4h", 2); ("1d", 3)]))
                          (Some 70) ]}.

(** Only Bitcoin answered: up five percent on the day. *)
Definition btc_rally : gmap string (asset_entry R) :=
  {[ "BTC-USD" := AssetEntry (Some {[ "1d" := 5 ]}) (Some 60000) ]}.

(** The snapshot with one change recorded anew: the change of [ticker] over
    [tf] is set to [change], whether or not the instrument had an entry or
    the entry had data; everything else is kept. *)
Definition record_change {F : Type} `{PyNum F}
    (all_data : gmap string (asset_entry F)) (ticker tf : string) (change : F)
    : gmap string (asset_entry F) :=
  <[ticker := AssetEntry (Some (<[tf := change]> (get_asset_data all_data ticker)))
                         (all_data !! ticker ≫= entry_price)]> all_data.

Definition Rsum (xs : list R) : R := fold_right Rplus 0 xs.

(** The decay of the negative branch, [raw < 0]. *)
Definition decay (raw : R) : R := (ln (1 + Rabs raw * 2) / ln (1 + 20)) * 25.

(** The contribution of one instrument, with a missing change read as 0. *)
Definition asset_contribution (all_data : gmap string (asset_entry R))
    (asset : string * asset_info R) : R :=
  Rsum (map (fun '(tf, w) =>
               default 0 (observed all_data asset.1 tf)
                 * IZR (direction asset.2) * w)
            TIMEFRAME_WEIGHTS)
    * weight asset.2.

(** The weighted sum over the data that is there, in the specification's
    words: every recorded change adds [change * direction * timeframe
    weight * instrument weight], a missing one adds no term. *)
Definition remaining_terms_of (all_data : gmap string (asset_entry R))
    (asset : string * asset_info R) : list R :=
  omap (fun '(tf, w) =>
          match observed all_data asset.1 tf with
          | Some change => Some (change * IZR (direction asset.2) * w * weight asset.2)
          | None => None
          end)
       TIMEFRAME_WEIGHTS.

Definition remaining_terms (all_data : gmap string (asset_entry R)) : list R :=
  flat_map (remaining_terms_of all_data) ASSETS.

(** The change [get_all_asset_data] stores for a timeframe, read off one
    turn of its loop. *)
Definition stored_change {F : Type} `{PyNum F} (df : option (list F))
    (tf : string) : F :=
  default (of_int 0)
          (fs_data (fetch_timeframe df tf (FetchState ∅ (of_int 0) None)) !! tf).

(** The number of closing prices a timeframe looks back over. *)
Definition lookback (tf : string) : nat := Z.to_nat (- start_idx tf).

(** A provider that answers for the week only, with five daily closes. *)
Definition weekly_only (ticker tf : string) : option (list R) :=
  if String.eqb tf "1wk" then Some [100; 101; 102; 103; 110] else None.

(** A download that gives nothing to compute a change from: it raises, or
    its series has fewer rows than the look-back of the timeframe. *)
Definition no_series {F : Type} (df : option (list F)) (tf : string) : Prop :=
  df = None \/ exists close, df = Some close /\ (length close < lookback tf)%nat.

(** [x] is the last close of one of the four series downloaded for a
    ticker. *)
Definition is_last_close {F : Type}
    (yf_download : string -> string -> option (list F)) (ticker : string)
    (x : F) : Prop :=
  exists tf close,
    tf ∈ timeframes /\ yf_download ticker tf = Some close /\ last close = Some x.

(** What the loop of [get_all_asset_data] keeps true of its price and of
    the bound [end_p]. *)
Definition price_inv {F : Type} `{PyNum F}
    (yf_download : string -> string -> option (list F)) (ticker : string)
    (st : fetch_state F) : Prop :=
  (fs_current_price st = of_int 0 \/
   is_last_close yf_download ticker (fs_current_price st)) /\
  (forall e, fs_end_p st = Some e -> is_last_close yf_download ticker e).

(** A provider that answers for the hour only: twelve closes, from 50 to 55. *)
Definition hourly_only (ticker tf : string) : option (list R) :=
  if String.eqb tf "1h" then Some (repeat 50 11 ++ [55])%list else None.

(** A provider whose hourly series starts at the price zero and whose
    four-hour frame comes back empty. *)
Definition zero_start (ticker tf : string) : option (list R) :=
  if String.eqb tf "1h" then Some (0 :: repeat 50 10 ++ [55])%list
  else if String.eqb tf "4h" then Some []
  else None.

(** A provider that is down: every download raises. *)
Definition outage {F : Type} (ticker tf : string) : option (list F) := None.

(** The level texts, lowest first. *)
Definition level_texts : list string :=
  ["🟢 Low Tension"; "🟡 Moderate Tension"; "🟠 Elevated Tension"; "🔴 High Tension"].

(** * Evaluation in binary64

    The example points of the specification, run in IEEE 754 double
    arithmetic: the values agree with the exact reading. *)

Section Binary64.
(** [math.log1p] belongs to the platform's C library; it stays a parameter
    of the binary64 reading. *)
Variable log1p64 : spec_float -> spec_float.

#[local] Instance B64Num : PyNum spec_float := {|
  of_int := B64.of_Z;
  fadd := B64.add;
  fsub := B64.sub;
  fmul := B64.mul;
  fdiv := B64.div;
  fabs := SFabs;
  log1p := log1p64;
  feqb := SFeqb;
  fltb := SFltb;
  fleb := SFleb
|}.

Lemma b64_div_self (s : bool) (m : positive) (e : Z) :
  B64.div (S754_finite s m e) (S754_finite s m e) = B64.of_Z 1.
Proof.
  unfold B64.div, SFdiv, SFdiv_core_binary.
  rewrite !Z.sub_diag.
  change (Z.min (fexp B64.prec B64.emax 0) 0) with (-53)%Z.
  change (0 - -53)%Z with 53%Z.
  rewrite Z.shiftl_mul_pow2 by lia.
  pose proof (Z.div_mul (2 ^ 53) (Z.pos m) ltac:(lia)) as Hq.
  pose proof (Z.mod_mul (2 ^ 53) (Z.pos m) ltac:(lia)) as Hr.
  rewrite (Z.mul_comm (2 ^ 53) (Z.pos m)) in Hq, Hr.
  unfold Z.div in Hq. unfold Z.modulo in Hr.
  destruct (Z.div_eucl (Z.pos m * 2 ^ 53) (Z.pos m)) as [q r].
  cbn [fst snd] in Hq, Hr. subst q r.
  unfold new_location.
  destruct (Z.even (Z.pos m)), s; reflexivity.
Qed.

Lemma b64_flat_market_defaults :
  calculations (F := spec_float) flat_market DEFAULT_CARRIERS
               DEFAULT_US_MILITARY DEFAULT_IDF_ALERT DEFAULT_SENTIMENT
  = Tension (of_int 0) (of_int 25) (of_int 73) (dec 394 10)
            "🟡 Moderate Tension" "#facc15".
Proof. vm_compute. reflexivity. Qed.

Lemma b64_calculate_geo_score_extremes :
  calculate_geo_score (F := spec_float) 4 "Unprecedented" "High" (of_int 10)
  = of_int 100 /\
  calculate_geo_score (F := spec_float) 0 "Low" "Low" (of_int 0) = of_int 0.
Proof. split; vm_compute; reflexivity. Qed.

Lemma b64_normalize_market_points :
  normalize_market (F := spec_float) (of_int 0) = of_int 25 /\
  normalize_market (F := spec_float) (of_int 10) = of_int 100 /\
  normalize_market (F := spec_float) (of_int 1000) = of_int 100.
Proof. repeat split; vm_compute; reflexivity. Qed.

Lemma b64_final_index_corners :
  final_index (F := spec_float) (of_int 0) (of_int 0) = of_int 0 /\
  final_index (F := spec_float) (of_int 100) (of_int 100) = of_int 100.
Proof. split; vm_compute; reflexivity. Qed.

Lemma b64_level_boundaries :
  level_text (F := spec_float) (of_int 30) = "🟡 Moderate Tension" /\
  level_text (F := spec_float) (of_int 60) = "🟠 Elevated Tension" /\
  level_text (F := spec_float) (of_int 80) = "🔴 High Tension" /\
  level_text (F := spec_float) (of_int 100) = "🔴 High Tension".
Proof. repeat split; vm_compute; reflexivity. Qed.

(** On the 21 positions of the sentiment slider, 0.0 to 10.0 by steps of
    0.5, the sentiment subscore is the sentiment itself. *)
Lemma b64_sentiment_score_slider :
  Forall (fun n => sentiment_score (F := spec_float) (dec n 2) = dec n 2)
         (seqZ 0 21).
Proof.
  apply Forall_forall. intros n Hn.
  apply elem_of_seqZ in Hn.
  assert (Hcases : n ∈ seqZ 0 21) by (apply elem_of_seqZ; lia).
  clear Hn. vm_compute in Hcases.
  repeat (apply elem_of_cons in Hcases as [-> | Hcases];
          [vm_compute; reflexivity |]).
  apply elem_of_nil in Hcases as [].
Qed.

(** The input [-10.0] is sent to 0 whatever finite non-zero double
    [math.log1p(20.0)] is: a double divided by itself is exactly 1.0. *)
Lemma b64_normalize_market_minus_10 (s : bool) (m : positive) (e : Z) :
  log1p64 (of_int 20) = S754_finite s m e ->
  normalize_market (F := spec_float) (of_int (-10)) = of_int 0.
Proof.
  intros Hlog. unfold normalize_market.
  change (fleb (of_int 0) (of_int (-10))) with false.
  cbv zeta.
  change (fabs (of_int (-10)) * of_int 2)%py with (of_int (F := spec_float) 20).
  change (@log1p spec_float B64Num) with log1p64.
  rewrite Hlog.
  change (S754_finite s m e / S754_finite s m e)%py
    with (B64.div (S754_finite s m e) (S754_finite s m e)).
  rewrite b64_div_self. vm_compute. reflexivity.
Qed.

(** Just above -10 the clamp is reached in doubles too: for the double
    next to -10.0, [abs(raw) * 2] is the double below 20.0, and a [log1p]
    that returns the same double for both sends the input to 0. *)
Lemma b64_normalize_market_above_minus_10 (s : bool) (m : positive) (e : Z) :
  log1p64 (of_int 20) = S754_finite s m e ->
  log1p64 (S754_finite false 5629499534213119 (-48)) = S754_finite s m e ->
  SFltb (of_int (-10)) (S754_finite true 5629499534213119 (-49)) = true /\
  normalize_market (F := spec_float) (S754_finite true 5629499534213119 (-49))
  = of_int 0.
Proof.
  intros Hlog Hnear. split; [vm_compute; reflexivity |].
  unfold normalize_market.
  change (fleb (of_int 0) (S754_finite true 5629499534213119 (-49))) with false.
  cbv zeta.
  change (fabs (S754_finite true 5629499534213119 (-49)) * of_int 2)%py
    with (S754_finite false 5629499534213119 (-48)).
  change (@log1p spec_float B64Num) with log1p64.
  rewrite Hlog, Hnear.
  change (S754_finite s m e / S754_finite s m e)%py
    with (B64.div (S754_finite s m e) (S754_finite s m e)).
  rewrite b64_div_self. vm_compute. reflexivity.
Qed.

(** The sentiment subscore in doubles: 11.0 comes back as 11.0 and lifts
    the score of the highest inputs to 101.0; the double next above 10.0
    comes back as itself, and the sum rounds to exactly 100.0. *)
Lemma b64_calculate_geo_score_above_10 :
  sentiment_score (F := spec_float) (of_int 11) = of_int 11 /\
  calculate_geo_score (F := spec_float) 4 "Unprecedented" "High" (of_int 11)
  = of_int 101 /\
  SFltb (of_int 10) (S754_finite false 5629499534213121 (-49)) = true /\
  calculate_geo_score (F := spec_float) 4 "Unprecedented" "High"
                      (S754_finite false 5629499534213121 (-49))
  = of_int 100.
Proof. repeat split; vm_compute; reflexivity. Qed.

(** With every download failing, the pass in doubles ends on the same
    values as in the exact reading. *)
Lemma b64_outage_reads_moderate :
  calculations (fetch_all_data (F := spec_float) outage) DEFAULT_CARRIERS
               DEFAULT_US_MILITARY DEFAULT_IDF_ALERT DEFAULT_SENTIMENT
  = Tension (of_int 0) (of_int 25) (of_int 73) (dec 394 10)
            "🟡 Moderate Tension" "#facc15".
Proof. vm_compute. reflexivity. Qed.
End Binary64.

(** * Proofs in the exact reals *)

Lemma Rltb_true x y : x < y -> Rltb x y = true.
Proof. intros Hxy. unfold Rltb. destruct (Rlt_dec x y); [reflexivity | contradiction]. Qed.

Lemma Rltb_false x y : y <= x -> Rltb x y = false.
Proof. intros Hyx. unfold Rltb. destruct (Rlt_dec x y); [lra | reflexivity]. Qed.

Lemma Rleb_true x y : x <= y -> Rleb x y = true.
Proof. intros Hxy. unfold Rleb. destruct (Rle_dec x y); [reflexivity | contradiction]. Qed.

Lemma Rleb_false x y : y < x -> Rleb x y = false.
Proof. intros Hyx. unfold Rleb. destruct (Rle_dec x y); [lra | reflexivity]. Qed.

Lemma Reqb_false x y : x <> y -> Reqb x y = false.
Proof. intros Hxy. unfold Reqb. destruct (Req_dec_T x y); [contradiction | reflexivity]. Qed.

(** Unfold the interface at the instance [RNum]. *)
Ltac on_reals :=
  cbv [dec py_min py_max of_int fadd fsub fmul fdiv fabs log1p feqb fltb fleb RNum] in *.

Lemma py_min_Rmin (a b : R) : py_min a b = Rmin a b.
Proof.
  on_reals. unfold Rltb, Rmin.
  destruct (Rlt_dec b a), (Rle_dec a b); lra.
Qed.

Lemma py_max_Rmax (a b : R) : py_max a b = Rmax a b.
Proof.
  on_reals. unfold Rltb, Rmax.
  destruct (Rlt_dec a b), (Rle_dec a b); lra.
Qed.

(** ** IndexCombiner *)

Lemma final_index_R (m g : R) : final_index m g = 0.7 * m + 0.3 * g.
Proof. unfold final_index. on_reals. lra. Qed.

(** C1: the final index is the plain weighted sum [0.7*m + 0.3*g], with no
    clamp at the combining stage, and for [m] and [g] each in [[0,100]] this
    sum is itself in [[0,100]]. *)
Theorem final_index_weighted_sum_in_range (m g : R) :
  0 <= m <= 100 -> 0 <= g <= 100 ->
  final_index m g = 0.7 * m + 0.3 * g /\ 0 <= final_index m g <= 100.
Proof.
  intros Hm Hg. rewrite final_index_R. split; [reflexivity | lra].
Qed.

Lemma final_index_weighted_sum_in_range_witness :
  final_index 25 73 = 0.7 * 25 + 0.3 * 73 /\ 0 <= final_index 25 73 <= 100.
Proof. apply final_index_weighted_sum_in_range; lra. Defined.

Lemma level_R (f : R) :
  level f =
    if Rlt_dec f 30 then ("🟢 Low Tension", "#10b981")
    else if Rlt_dec f 60 then ("🟡 Moderate Tension", "#facc15")
    else if Rlt_dec f 80 then ("🟠 Elevated Tension", "#fb923c")
    else ("🔴 High Tension", "#ef4444").
Proof.
  unfold level. on_reals. unfold Rltb.
  destruct (Rlt_dec f 30), (Rlt_dec f 60), (Rlt_dec f 80); reflexivity.
Qed.

(** C2: the level bands are half open, [[0,30)] Low, [[30,60)] Moderate,
    [[60,80)] Elevated, [[80,100]] High; 30.0 is Moderate, 60.0 Elevated,
    80.0 and 100.0 High. *)
Theorem level_bands (f : R) :
  (0 <= f < 30 -> level_text f = "🟢 Low Tension") /\
  (30 <= f < 60 -> level_text f = "🟡 Moderate Tension") /\
  (60 <= f < 80 -> level_text f = "🟠 Elevated Tension") /\
  (80 <= f <= 100 -> level_text f = "🔴 High Tension") /\
  level_text (F := R) 30 = "🟡 Moderate Tension" /\
  level_text (F := R) 60 = "🟠 Elevated Tension" /\
  level_text (F := R) 80 = "🔴 High Tension" /\
  level_text (F := R) 100 = "🔴 High Tension".
Proof.
  unfold level_text. rewrite !level_R.
  repeat split; try intros Hf;
    repeat match goal with
           | |- context [Rlt_dec ?a ?b] => destruct (Rlt_dec a b); try lra
           end; reflexivity.
Qed.

Lemma level_bands_witness :
  level_text (F := R) 29.5 = "🟢 Low Tension" /\
  level_text (F := R) 39.4 = "🟡 Moderate Tension" /\
  level_text (F := R) 79.5 = "🟠 Elevated Tension" /\
  level_text (F := R) 99 = "🔴 High Tension".
Proof.
  repeat split.
  - apply (level_bands 29.5); lra.
  - apply (level_bands 39.4); lra.
  - apply (level_bands 79.5); lra.
  - apply (level_bands 99); lra.
Defined.

(** ** MarketNormalizer *)

Lemma normalize_market_nonneg (raw : R) :
  0 <= raw -> normalize_market raw = Rmin 100 (25 + (raw / 10) * 75).
Proof.
  intros Hraw. unfold normalize_market.
  change (fleb (of_int 0%Z) raw) with (Rleb 0 raw).
  rewrite Rleb_true by assumption. apply py_min_Rmin.
Qed.

Lemma normalize_market_neg (raw : R) :
  raw < 0 ->
  normalize_market raw = Rmax 0 (25 - (ln (1 + Rabs raw * 2) / ln (1 + 20)) * 25).
Proof.
  intros Hraw. unfold normalize_market.
  change (fleb (of_int 0%Z) raw) with (Rleb 0 raw).
  rewrite Rleb_false by assumption. cbv zeta. apply py_max_Rmax.
Qed.

(** C4: on [raw >= 0] the normaliser is [min(100, 25 + (raw/10)*75)], it is
    non-decreasing, sends 0 to 25 and every [raw >= 10] to 100. *)
Theorem normalize_market_nonneg_branch (raw raw' top : R) :
  0 <= raw -> raw <= raw' -> 10 <= top ->
  normalize_market raw = Rmin 100 (25 + (raw / 10) * 75) /\
  normalize_market raw <= normalize_market raw' /\
  normalize_market (F := R) 0 = 25 /\
  normalize_market top = 100.
Proof.
  intros Hraw Hle Htop.
  rewrite !normalize_market_nonneg by lra.
  repeat split.
  - apply Rle_min_compat_l. lra.
  - unfold Rmin. destruct (Rle_dec 100 (25 + 0 / 10 * 75)); lra.
  - unfold Rmin. destruct (Rle_dec 100 (25 + top / 10 * 75)); lra.
Qed.

Lemma normalize_market_nonneg_branch_witness :
  normalize_market (F := R) 4 = Rmin 100 (25 + (4 / 10) * 75) /\
  normalize_market (F := R) 4 <= normalize_market (F := R) 12 /\
  normalize_market (F := R) 0 = 25 /\
  normalize_market (F := R) 10 = 100.
Proof. apply (normalize_market_nonneg_branch 4 12 10); lra. Defined.

Lemma ln_21_pos : 0 < ln (1 + 20).
Proof. rewrite <- ln_1. apply ln_increasing; lra. Qed.

Lemma ln_monotone (x y : R) : 0 < x -> x <= y -> ln x <= ln y.
Proof.
  intros Hx [Hlt | ->]; [| lra].
  left. apply ln_increasing; assumption.
Qed.

Lemma decay_neg (raw : R) :
  raw < 0 -> decay raw = (ln (1 - 2 * raw) / ln (1 + 20)) * 25.
Proof.
  intros Hraw. unfold decay. rewrite Rabs_left by assumption.
  replace (1 + - raw * 2) with (1 - 2 * raw) by lra. reflexivity.
Qed.

Lemma decay_antitone (raw raw' : R) :
  raw <= raw' -> raw' < 0 -> decay raw' <= decay raw.
Proof.
  intros Hle Hneg. rewrite !decay_neg by lra.
  apply Rmult_le_compat_r; [lra |].
  apply Rmult_le_compat_r.
  - left. apply Rinv_0_lt_compat, ln_21_pos.
  - apply ln_monotone; lra.
Qed.

Lemma decay_pos (raw : R) : raw < 0 -> 0 < decay raw.
Proof.
  intros Hraw. rewrite decay_neg by assumption.
  apply Rmult_lt_0_compat; [| lra].
  apply Rdiv_lt_0_compat; [| apply ln_21_pos].
  rewrite <- ln_1. apply ln_increasing; lra.
Qed.

Lemma decay_below_25 (raw : R) : -10 < raw -> raw < 0 -> decay raw < 25.
Proof.
  intros Hlo Hneg. rewrite decay_neg by assumption.
  pose proof ln_21_pos as HL.
  assert (Hln : ln (1 - 2 * raw) < ln (1 + 20)) by (apply ln_increasing; lra).
  assert (Hq : ln (1 - 2 * raw) / ln (1 + 20) < 1).
  { apply (Rmult_lt_reg_r (ln (1 + 20))); [assumption |].
    unfold Rdiv. rewrite Rmult_assoc, Rinv_l by lra. lra. }
  lra.
Qed.

Lemma decay_at_least_25 (raw : R) : raw <= -10 -> 25 <= decay raw.
Proof.
  intros Hlo. rewrite decay_neg by lra.
  pose proof ln_21_pos as HL.
  assert (Hln : ln (1 + 20) <= ln (1 - 2 * raw)) by (apply ln_monotone; lra).
  assert (Hq : 1 <= ln (1 - 2 * raw) / ln (1 + 20)).
  { apply (Rmult_le_reg_r (ln (1 + 20))); [assumption |].
    unfold Rdiv. rewrite Rmult_assoc, Rinv_l by lra. lra. }
  lra.
Qed.

Lemma normalize_market_decay (raw : R) :
  raw < 0 -> normalize_market raw = Rmax 0 (25 - decay raw).
Proof. apply normalize_market_neg. Qed.

(** C3, as the code has it: on [raw < 0] the normaliser is non-decreasing
    and stays in [[0,25]]; it is exactly 0 for every [raw <= -10] (the
    [max(0, ...)] clamp) and strictly positive on [-9.9 <= raw < 0].
    Between -10 and -9.9 the sign is left open: in doubles the quotient of
    the two logarithms already rounds to 1.0 just above -10. *)
Theorem normalize_market_neg_branch (raw raw' above below : R) :
  raw <= raw' -> raw' < 0 -> -9.9 <= above < 0 -> below <= -10 ->
  normalize_market raw <= normalize_market raw' /\
  0 <= normalize_market raw <= 25 /\
  0 < normalize_market above /\
  normalize_market below = 0.
Proof.
  intros Hle Hneg Habove Hbelow.
  rewrite !normalize_market_decay by lra.
  pose proof (decay_antitone raw raw' Hle Hneg) as Hanti.
  assert (Hpos : 0 < decay raw) by (apply decay_pos; lra).
  repeat split.
  - apply Rle_max_compat_l. lra.
  - apply Rmax_l.
  - apply Rmax_lub; lra.
  - pose proof (decay_below_25 above ltac:(lra) ltac:(lra)).
    apply Rlt_le_trans with (25 - decay above); [lra | apply Rmax_r].
  - pose proof (decay_at_least_25 below Hbelow).
    apply Rmax_left. lra.
Qed.

Lemma normalize_market_neg_branch_witness :
  normalize_market (F := R) (-12) <= normalize_market (F := R) (-3) /\
  0 <= normalize_market (F := R) (-12) <= 25 /\
  0 < normalize_market (F := R) (-9) /\
  normalize_market (F := R) (-100) = 0.
Proof. apply (normalize_market_neg_branch (-12) (-3) (-9) (-100)); lra. Defined.

(** C3 as stated fails: the finite negative input [-10] is sent to exactly
    0, since [log1p(20) / log1p(20) * 25 = 25]. *)
Lemma normalize_market_reaches_zero :
  -10 < 0 /\ normalize_market (F := R) (-10) = 0.
Proof.
  split; [lra |].
  rewrite normalize_market_decay by lra.
  apply Rmax_left. pose proof (decay_at_least_25 (-10)). lra.
Qed.

(** ** GeopoliticalScorer *)

Lemma military_score_unknown (us_military : string) :
  us_military ∉ military_levels -> military_score us_military = 25%Z.
Proof.
  intros Hnot. unfold military_score, military_map.
  rewrite (not_elem_of_list_to_map_1 _ us_military); [reflexivity | exact Hnot].
Qed.

Lemma idf_score_unknown (idf_alert : string) :
  idf_alert ∉ alert_levels -> idf_score idf_alert = 8%Z.
Proof.
  intros Hnot. unfold idf_score, idf_map.
  rewrite (not_elem_of_list_to_map_1 _ idf_alert); [reflexivity | exact Hnot].
Qed.

Lemma military_score_range (us_military : string) :
  (0 <= military_score us_military <= 40)%Z.
Proof.
  unfold military_score, military_map.
  destruct (list_to_map _ !! us_military) as [v|] eqn:Hget; simpl; [| lia].
  apply elem_of_list_to_map_2 in Hget.
  repeat (apply elem_of_cons in Hget as [[= _ ->] | Hget]; [lia |]).
  apply elem_of_nil in Hget as [].
Qed.

Lemma idf_score_range (idf_alert : string) :
  (0 <= idf_score idf_alert <= 15)%Z.
Proof.
  unfold idf_score, idf_map.
  destruct (list_to_map _ !! idf_alert) as [v|] eqn:Hget; simpl; [| lia].
  apply elem_of_list_to_map_2 in Hget.
  repeat (apply elem_of_cons in Hget as [[= _ ->] | Hget]; [lia |]).
  apply elem_of_nil in Hget as [].
Qed.

Lemma carrier_score_R (carriers : Z) :
  carrier_score carriers = IZR (Z.min carriers 4) * 8.75.
Proof. unfold carrier_score. on_reals. lra. Qed.

Lemma sentiment_score_R (sentiment : R) : sentiment_score sentiment = sentiment.
Proof. unfold sentiment_score. on_reals. lra. Qed.

Lemma calculate_geo_score_R (carriers : Z) (us_military idf_alert : string)
    (sentiment : R) :
  calculate_geo_score carriers us_military idf_alert sentiment =
    IZR (Z.min carriers 4) * 8.75 + IZR (military_score us_military)
      + IZR (idf_score idf_alert) + sentiment.
Proof.
  unfold calculate_geo_score.
  rewrite carrier_score_R, sentiment_score_R. reflexivity.
Qed.

(** The score is in range as soon as the two numeric inputs are: carriers
    above 4 are cut by [min], and any level string scores within its table. *)
Lemma calculate_geo_score_range (carriers : Z) (us_military idf_alert : string)
    (sentiment : R) :
  (0 <= carriers)%Z -> 0 <= sentiment <= 10 ->
  0 <= calculate_geo_score carriers us_military idf_alert sentiment <= 100.
Proof.
  intros Hc Hs. rewrite calculate_geo_score_R.
  pose proof (military_score_range us_military) as [Hm0 Hm1].
  pose proof (idf_score_range idf_alert) as [Hi0 Hi1].
  assert (Hc' : (0 <= Z.min carriers 4 <= 4)%Z) by lia.
  destruct Hc' as [Hc0 Hc1].
  apply IZR_le in Hm0, Hm1, Hi0, Hi1, Hc0, Hc1. lra.
Qed.

(** C6: the score is exactly 100 at the maximum inputs and exactly 0 at the
    minimum inputs; each subscore is largest at the maximum input, where the
    four are 35, 40, 15 and 10 and sum to 100, so the score of valid inputs
    is in [[0,100]]. *)
Theorem calculate_geo_score_extremes (carriers : Z)
    (us_military idf_alert : string) (sentiment : R) :
  (0 <= carriers <= 4)%Z -> us_military ∈ military_levels ->
  idf_alert ∈ alert_levels -> 0 <= sentiment <= 10 ->
  calculate_geo_score (F := R) 4 "Unprecedented" "High" 10 = 100 /\
  calculate_geo_score (F := R) 0 "Low" "Low" 0 = 0 /\
  (carrier_score (F := R) carriers <= carrier_score (F := R) 4 /\
   (military_score us_military <= military_score "Unprecedented")%Z /\
   (idf_score idf_alert <= idf_score "High")%Z /\
   sentiment_score sentiment <= sentiment_score (F := R) 10) /\
  (carrier_score (F := R) 4 = 35 /\
   military_score "Unprecedented" = 40%Z /\
   idf_score "High" = 15%Z /\
   sentiment_score (F := R) 10 = 10 /\
   35 + 40 + 15 + 10 = 100) /\
  0 <= calculate_geo_score carriers us_military idf_alert sentiment <= 100.
Proof.
  intros Hc Hm Hi Hs.
  pose proof (military_score_range us_military) as [_ Hm1].
  pose proof (idf_score_range idf_alert) as [_ Hi1].
  assert (Hc1 : (Z.min carriers 4 <= 4)%Z) by lia.
  apply IZR_le in Hc1.
  assert (Hcarrier : carrier_score (F := R) 4 = 35).
  { rewrite carrier_score_R. change (Z.min 4 4) with 4%Z. lra. }
  change (military_score "Unprecedented") with 40%Z.
  change (idf_score "High") with 15%Z.
  rewrite Hcarrier, !calculate_geo_score_R, carrier_score_R, !sentiment_score_R.
  change (military_score "Unprecedented") with 40%Z.
  change (idf_score "High") with 15%Z.
  change (military_score "Low") with 0%Z.
  change (idf_score "Low") with 0%Z.
  change (Z.min 4 4) with 4%Z.
  change (Z.min 0 4) with 0%Z.
  rewrite <- calculate_geo_score_R.
  pose proof (calculate_geo_score_range carriers us_military idf_alert sentiment
                ltac:(lia) Hs) as Hrange.
  repeat split; try reflexivity; try assumption; try lra.
Qed.

Lemma calculate_geo_score_extremes_witness :
  calculate_geo_score (F := R) 4 "Unprecedented" "High" 10 = 100 /\
  calculate_geo_score (F := R) 0 "Low" "Low" 0 = 0 /\
  (carrier_score (F := R) 2 <= carrier_score (F := R) 4 /\
   (military_score "Extreme" <= military_score "Unprecedented")%Z /\
   (idf_score "High" <= idf_score "High")%Z /\
   sentiment_score 8.5 <= sentiment_score (F := R) 10) /\
  (carrier_score (F := R) 4 = 35 /\
   military_score "Unprecedented" = 40%Z /\
   idf_score "High" = 15%Z /\
   sentiment_score (F := R) 10 = 10 /\
   35 + 40 + 15 + 10 = 100) /\
  0 <= calculate_geo_score 2 "Extreme" "High" 8.5 <= 100.
Proof.
  apply (calculate_geo_score_extremes 2 "Extreme" "High" 8.5).
  - lia.
  - compute_done.
  - compute_done.
  - lra.
Defined.

(** C7: a military level outside the table scores 25 and an alert level
    outside the table scores 8; the scorer still returns the sum of its four
    subscores.  This holds in every reading of the arithmetic. *)
Theorem unrecognized_level_defaults {F : Type} `{PyNum F}
    (carriers : Z) (us_military idf_alert : string) (sentiment : F) :
  (us_military ∉ military_levels ->
   military_score us_military = 25%Z /\
   calculate_geo_score carriers us_military idf_alert sentiment =
     (carrier_score carriers + of_int 25 + of_int (idf_score idf_alert)
      + sentiment_score sentiment)%py) /\
  (idf_alert ∉ alert_levels ->
   idf_score idf_alert = 8%Z /\
   calculate_geo_score carriers us_military idf_alert sentiment =
     (carrier_score carriers + of_int (military_score us_military) + of_int 8
      + sentiment_score sentiment)%py).
Proof.
  split; intros Hnot; unfold calculate_geo_score.
  - rewrite (military_score_unknown _ Hnot). split; reflexivity.
  - rewrite (idf_score_unknown _ Hnot). split; reflexivity.
Qed.

Lemma unrecognized_level_defaults_witness :
  military_score "Severe" = 25%Z /\ idf_score "Critical" = 8%Z /\
  calculate_geo_score (F := R) 2 "Severe" "Critical" 8.5
    = 17.5 + 25 + 8 + 8.5.
Proof.
  assert (Hm : "Severe" ∉ military_levels) by compute_done.
  assert (Hi : "Critical" ∉ alert_levels) by compute_done.
  destruct (unrecognized_level_defaults (F := R) 2 "Severe" "Critical" 8.5)
    as [Hmil Hidf].
  destruct (Hmil Hm) as [Hm25 Hscore].
  destruct (Hidf Hi) as [Hi8 _].
  split; [exact Hm25 |]. split; [exact Hi8 |].
  rewrite Hscore, Hi8, carrier_score_R, sentiment_score_R.
  change (Z.min 2 4) with 2%Z. on_reals. lra.
Defined.

(** C10, as the code has it: nothing clamps the score.  A negative
    carrier count gives the carrier subscore [carriers * 8.75] and, with
    the lowest levels and sentiment 0.0, that same negative number as the
    score; the count is taken above [-(2^1024 - 2^970)], from where on
    Python's conversion of the integer to a float raises [OverflowError].
    A sentiment above 10 gives the subscore [(sentiment / 10) * 10], which
    is at least 10 and, in doubles, need not be the sentiment itself; with
    the highest inputs the score is at least 100, and from sentiment 11 on
    at least 101, above the range. *)
Theorem calculate_geo_score_unclamped (carriers : Z) (sentiment high : R) :
  (- (2 ^ 1024 - 2 ^ 970) < carriers < 0)%Z -> 10 < sentiment -> 11 <= high ->
  carrier_score (F := R) carriers = IZR carriers * 8.75 /\
  calculate_geo_score (F := R) carriers "Low" "Low" 0 = IZR carriers * 8.75 /\
  calculate_geo_score (F := R) carriers "Low" "Low" 0 < 0 /\
  sentiment_score sentiment = (sentiment / 10) * 10 /\
  10 <= sentiment_score sentiment /\
  100 <= calculate_geo_score 4 "Unprecedented" "High" sentiment /\
  101 <= calculate_geo_score 4 "Unprecedented" "High" high.
Proof.
  intros [_ Hc] Hs Hhigh.
  rewrite !calculate_geo_score_R, carrier_score_R, !sentiment_score_R.
  change (military_score "Unprecedented") with 40%Z.
  change (idf_score "High") with 15%Z.
  change (military_score "Low") with 0%Z.
  change (idf_score "Low") with 0%Z.
  change (Z.min 4 4) with 4%Z.
  rewrite Z.min_l by lia.
  assert (Hneg : IZR carriers <= -1) by (apply IZR_le; lia).
  repeat split; lra.
Qed.

Lemma calculate_geo_score_unclamped_witness :
  carrier_score (F := R) (-1) = IZR (-1) * 8.75 /\
  calculate_geo_score (F := R) (-1) "Low" "Low" 0 = IZR (-1) * 8.75 /\
  calculate_geo_score (F := R) (-1) "Low" "Low" 0 < 0 /\
  sentiment_score 10.6 = (10.6 / 10) * 10 /\
  10 <= sentiment_score 10.6 /\
  100 <= calculate_geo_score 4 "Unprecedented" "High" 10.6 /\
  101 <= calculate_geo_score 4 "Unprecedented" "High" 11.
Proof.
  apply (calculate_geo_score_unclamped (-1) 10.6 11);
    [split; [reflexivity | lia] | lra | lra].
Defined.

(** C10 as stated fails: in the doubles the code computes with, the
    sentiment 10.6, above 10, does not come back as its own subscore:
    [(10.6 / 10) * 10] is the next double, 10.600000000000001.  ([log1p]
    plays no part in the scorer; any function serves as its reading.) *)
Lemma sentiment_score_rounds :
  fltb (PyNum := B64Num (fun x => x)) (of_int (PyNum := B64Num (fun x => x)) 10)
       (dec (H := B64Num (fun x => x)) 106 10) = true /\
  sentiment_score (H := B64Num (fun x => x)) (dec (H := B64Num (fun x => x)) 106 10)
  <> dec (H := B64Num (fun x => x)) 106 10.
Proof. split; [vm_compute; reflexivity | vm_compute; intros [=]]. Qed.

(** ** ContributionBreakdown *)

Lemma get_progress_color_R (value max_val : R) :
  max_val <> 0 ->
  get_progress_color value max_val =
    Some (if Rlt_dec (value / max_val) 0.3 then "#10b981"
          else if Rlt_dec (value / max_val) 0.6 then "#facc15"
          else if Rlt_dec (value / max_val) 0.85 then "#fb923c"
          else "#ef4444").
Proof.
  intros Hmax. unfold get_progress_color.
  change (feqb max_val (of_int 0%Z)) with (Reqb max_val 0).
  rewrite Reqb_false by assumption.
  on_reals. unfold Rltb.
  replace (3 / 10) with 0.3 by lra.
  replace (6 / 10) with 0.6 by lra.
  replace (85 / 100) with 0.85 by lra.
  destruct (Rlt_dec (value / max_val) 0.3), (Rlt_dec (value / max_val) 0.6),
    (Rlt_dec (value / max_val) 0.85); reflexivity.
Qed.

(** C9: for [max_val > 0] the band of a factor is decided by the ratio
    [value / max_val] with cut points 0.3, 0.6 and 0.85: calm (green),
    watch (yellow), elevated (orange), critical (red).  The cut points are
    not those of the level: at 82 of 100 the factor is still elevated while
    the index level is already High. *)
Theorem get_progress_color_bands (value max_val : R) :
  0 < max_val ->
  (value / max_val < 0.3 ->
   get_progress_color value max_val = Some "#10b981") /\
  (0.3 <= value / max_val < 0.6 ->
   get_progress_color value max_val = Some "#facc15") /\
  (0.6 <= value / max_val < 0.85 ->
   get_progress_color value max_val = Some "#fb923c") /\
  (0.85 <= value / max_val ->
   get_progress_color value max_val = Some "#ef4444") /\
  get_progress_color (F := R) 82 100 = Some "#fb923c" /\
  level_color (F := R) 82 = "#ef4444".
Proof.
  intros Hmax.
  rewrite !get_progress_color_R by lra.
  unfold level_color. rewrite level_R.
  repeat split; try intros Hratio;
    repeat match goal with
           | |- context [Rlt_dec ?a ?b] => destruct (Rlt_dec a b); try lra
           end; reflexivity.
Qed.

Lemma get_progress_color_bands_witness :
  get_progress_color (F := R) 8 40 = Some "#10b981" /\
  get_progress_color (F := R) 17.5 35 = Some "#facc15" /\
  get_progress_color (F := R) 32 40 = Some "#fb923c" /\
  get_progress_color (F := R) 15 15 = Some "#ef4444".
Proof.
  repeat split.
  - apply (get_progress_color_bands 8 40); lra.
  - apply (get_progress_color_bands 17.5 35); lra.
  - apply (get_progress_color_bands 32 40); lra.
  - apply (get_progress_color_bands 15 15); lra.
Defined.

(** ** MarketSignalAggregator *)

Lemma get_asset_data_observed {F : Type} (all_data : gmap string (asset_entry F))
    (ticker tf : string) :
  get_asset_data all_data ticker !! tf = observed all_data ticker tf.
Proof.
  unfold get_asset_data, observed.
  destruct (all_data !! ticker) as [[[data|] price]|]; simpl;
    try reflexivity; apply lookup_empty.
Qed.

Lemma Rsum_app (xs ys : list R) : Rsum (xs ++ ys) = Rsum xs + Rsum ys.
Proof.
  induction xs as [|x xs IH]; simpl; [lra |]. rewrite IH. lra.
Qed.

Lemma fold_left_Rplus (xs : list R) (acc : R) :
  fold_left Rplus xs acc = acc + Rsum xs.
Proof.
  revert acc. induction xs as [|x xs IH]; intros acc; simpl; [lra |].
  rewrite IH. lra.
Qed.

Lemma py_sum_R (xs : list R) : py_sum xs = Rsum xs.
Proof.
  unfold py_sum. change (fold_left fadd xs (of_int 0%Z)) with (fold_left Rplus xs 0).
  rewrite fold_left_Rplus. lra.
Qed.

Lemma weighted_terms_R (all_data : gmap string (asset_entry R))
    (ticker : string) (info : asset_info R) :
  py_sum (weighted_terms (get_asset_data all_data ticker) info) * weight info
  = asset_contribution all_data (ticker, info).
Proof.
  rewrite py_sum_R. unfold asset_contribution, weighted_terms. cbn [fst snd].
  apply (f_equal (fun terms => Rsum terms * weight info)).
  apply map_ext. intros [tf w].
  rewrite get_asset_data_observed. reflexivity.
Qed.

Lemma fold_left_contributions (all_data : gmap string (asset_entry R))
    (assets : list (string * asset_info R)) (acc : R) :
  fold_left
    (fun total '(ticker, info) =>
       (total + py_sum (weighted_terms (get_asset_data all_data ticker) info)
                * weight info)%py)
    assets acc
  = acc + Rsum (map (asset_contribution all_data) assets).
Proof.
  revert acc. induction assets as [|[ticker info] assets IH]; intros acc; simpl.
  - lra.
  - rewrite IH.
    change (@fadd R RNum) with Rplus. change (@fmul R RNum) with Rmult.
    rewrite weighted_terms_R. lra.
Qed.

Lemma calculate_market_raw_R (all_data : gmap string (asset_entry R)) :
  calculate_market_raw all_data = Rsum (map (asset_contribution all_data) ASSETS).
Proof.
  unfold calculate_market_raw.
  change (of_int 0%Z) with 0.
  rewrite (fold_left_contributions all_data ASSETS 0). lra.
Qed.

Lemma Rsum_omap_scaled (change : string -> option R) (k scale : R)
    (tfs : list (string * R)) :
  Rsum (omap (fun '(tf, w) =>
                match change tf with
                | Some c => Some (c * k * w * scale)
                | None => None
                end) tfs)
  = Rsum (map (fun '(tf, w) => default 0 (change tf) * k * w) tfs) * scale.
Proof.
  unfold Rsum.
  induction tfs as [|[tf w] tfs IH]; [simpl; lra |].
  cbn [omap list_omap map].
  destruct (change tf) as [c|]; cbn [default fold_right];
    rewrite IH; unfold Datatypes.id; lra.
Qed.

Lemma remaining_terms_of_sum (all_data : gmap string (asset_entry R))
    (asset : string * asset_info R) :
  Rsum (remaining_terms_of all_data asset) = asset_contribution all_data asset.
Proof.
  unfold remaining_terms_of, asset_contribution.
  apply (Rsum_omap_scaled (observed all_data asset.1)).
Qed.

Lemma Rsum_flat_map {A : Type} (f : A -> list R) (xs : list A) :
  Rsum (flat_map f xs) = Rsum (map (fun x => Rsum (f x)) xs).
Proof.
  induction xs as [|x xs IH]; simpl; [reflexivity |].
  rewrite Rsum_app, IH. reflexivity.
Qed.

Lemma calculate_market_raw_remaining (all_data : gmap string (asset_entry R)) :
  calculate_market_raw all_data = Rsum (remaining_terms all_data).
Proof.
  rewrite calculate_market_raw_R. unfold remaining_terms.
  rewrite Rsum_flat_map. f_equal.
  apply map_ext. intros asset. symmetry. apply remaining_terms_of_sum.
Qed.

Lemma ASSETS_keys {F : Type} `{PyNum F} : (ASSETS (F := F)).*1 = tickers.
Proof. reflexivity. Qed.

Lemma TIMEFRAME_WEIGHTS_keys {F : Type} `{PyNum F} :
  (TIMEFRAME_WEIGHTS (F := F)).*1 = timeframes.
Proof. reflexivity. Qed.

(** Two snapshots that agree once missing changes are read as 0.0 have the
    same raw signal. *)
Lemma calculate_market_raw_ext (all_data all_data' : gmap string (asset_entry R)) :
  (forall ticker tf, ticker ∈ tickers -> tf ∈ timeframes ->
     default 0 (observed all_data' ticker tf)
     = default 0 (observed all_data ticker tf)) ->
  calculate_market_raw all_data' = calculate_market_raw all_data.
Proof.
  intros Hagree. rewrite !calculate_market_raw_R. f_equal.
  apply map_ext_in. intros [ticker info] Hasset.
  unfold asset_contribution. cbn [fst snd]. f_equal. f_equal.
  apply map_ext_in. intros [tf w] Htf.
  rewrite Hagree; [reflexivity | |].
  - rewrite <- (ASSETS_keys (F := R)). apply list_elem_of_In in Hasset.
    apply (list_elem_of_fmap_2 fst) in Hasset. exact Hasset.
  - rewrite <- (TIMEFRAME_WEIGHTS_keys (F := R)). apply list_elem_of_In in Htf.
    apply (list_elem_of_fmap_2 fst) in Htf. exact Htf.
Qed.

Lemma normalize_market_range (raw : R) : 0 <= normalize_market raw <= 100.
Proof.
  destruct (Rle_lt_dec 0 raw) as [Hpos | Hneg].
  - rewrite normalize_market_nonneg by assumption.
    split.
    + apply Rmin_glb; lra.
    + apply Rmin_l.
  - rewrite normalize_market_decay by assumption.
    pose proof (decay_pos raw Hneg). split.
    + apply Rmax_l.
    + apply Rmax_lub; lra.
Qed.

Lemma calculations_final_range (all_data : gmap string (asset_entry R))
    (carriers : Z) (us_military idf_alert : string) (sentiment : R) :
  (0 <= carriers)%Z -> 0 <= sentiment <= 10 ->
  0 <= t_final_index
         (calculations all_data carriers us_military idf_alert sentiment) <= 100.
Proof.
  intros Hc Hs. unfold calculations. cbn [t_final_index].
  rewrite final_index_R.
  pose proof (normalize_market_range (calculate_market_raw all_data)).
  pose proof (calculate_geo_score_range carriers us_military idf_alert sentiment Hc Hs).
  lra.
Qed.

(** C8: a missing change, or a missing instrument, counts as 0.0: the raw
    signal is the weighted sum over the data that is there, it is the same
    as for the snapshot with every gap filled by 0.0, and the final index of
    valid geopolitical inputs is in [[0,100]] whatever is missing. *)
Theorem missing_data_is_neutral (all_data filled : gmap string (asset_entry R))
    (carriers : Z) (us_military idf_alert : string) (sentiment : R) :
  (forall ticker tf, ticker ∈ tickers -> tf ∈ timeframes ->
     observed filled ticker tf = Some (default 0 (observed all_data ticker tf))) ->
  (0 <= carriers <= 4)%Z -> 0 <= sentiment <= 10 ->
  calculate_market_raw all_data = Rsum (remaining_terms all_data) /\
  calculate_market_raw all_data = calculate_market_raw filled /\
  0 <= t_final_index
         (calculations all_data carriers us_military idf_alert sentiment) <= 100.
Proof.
  intros Hfilled Hc Hs. split; [| split].
  - apply calculate_market_raw_remaining.
  - apply calculate_market_raw_ext. intros ticker tf Hticker Htf.
    rewrite (Hfilled ticker tf Hticker Htf). reflexivity.
  - apply calculations_final_range; [lia | assumption].
Qed.

Lemma tabulate_keys {V : Type} (f : string -> V) (keys : list string) :
  (map (fun k => (k, f k)) keys).*1 = keys.
Proof.
  induction keys as [|k keys IH]; [reflexivity |].
  cbn [map fmap list_fmap fst]. f_equal. exact IH.
Qed.

Lemma lookup_tabulate {V : Type} (f : string -> V) (keys : list string)
    (key : string) :
  NoDup keys -> key ∈ keys ->
  (list_to_map (map (fun k => (k, f k)) keys) : gmap string V) !! key
  = Some (f key).
Proof.
  intros Hnodup Hkey. apply elem_of_list_to_map_1.
  - rewrite tabulate_keys. exact Hnodup.
  - apply (list_elem_of_fmap_2 (fun k => (k, f k))). exact Hkey.
Qed.

Lemma fill_gaps_observed (all_data : gmap string (asset_entry R))
    (ticker tf : string) :
  ticker ∈ tickers -> tf ∈ timeframes ->
  observed (fill_gaps all_data) ticker tf
  = Some (default 0 (observed all_data ticker tf)).
Proof.
  intros Hticker Htf. unfold observed at 1, fill_gaps.
  rewrite lookup_tabulate; [| compute_done | exact Hticker].
  cbn [entry_data].
  rewrite lookup_tabulate; [| compute_done | exact Htf].
  reflexivity.
Qed.

Lemma missing_data_is_neutral_witness :
  calculate_market_raw partial_data = Rsum (remaining_terms partial_data) /\
  calculate_market_raw partial_data = calculate_market_raw (fill_gaps partial_data) /\
  0 <= t_final_index (calculations partial_data 2 "Extreme" "High" 8.5) <= 100.
Proof.
  apply (missing_data_is_neutral partial_data (fill_gaps partial_data)).
  - apply fill_gaps_observed.
  - lia.
  - lra.
Defined.

(** ** The end-to-end example *)

Lemma calculate_market_raw_flat (all_data : gmap string (asset_entry R)) :
  (forall ticker tf, ticker ∈ tickers -> tf ∈ timeframes ->
     observed all_data ticker tf = Some 0) ->
  calculate_market_raw all_data = 0.
Proof.
  intros Hflat. rewrite calculate_market_raw_R.
  unfold ASSETS, asset_contribution, TIMEFRAME_WEIGHTS.
  cbn [map fst snd Rsum fold_right direction weight].
  rewrite !Hflat by compute_done.
  cbn [default]. unfold Datatypes.id. on_reals. lra.
Qed.

(** C5: a flat market (every change 0.0) with the default geopolitical
    inputs gives market score 25.0, geopolitical score 73.0, final index
    39.4 and the level Moderate. *)
Theorem flat_market_defaults (all_data : gmap string (asset_entry R)) :
  (forall ticker tf, ticker ∈ tickers -> tf ∈ timeframes ->
     observed all_data ticker tf = Some 0) ->
  let result :=
    calculations all_data DEFAULT_CARRIERS DEFAULT_US_MILITARY
                 DEFAULT_IDF_ALERT DEFAULT_SENTIMENT in
  t_market_norm result = 25 /\
  t_geo_score result = 73 /\
  t_final_index result = 39.4 /\
  t_level_text result = "🟡 Moderate Tension".
Proof.
  intros Hflat result. subst result. unfold calculations.
  cbn [t_market_norm t_geo_score t_final_index t_level_text].
  rewrite (calculate_market_raw_flat all_data Hflat).
  assert (Hnorm : normalize_market (F := R) 0 = 25).
  { rewrite normalize_market_nonneg by lra.
    unfold Rmin. destruct (Rle_dec 100 (25 + 0 / 10 * 75)); lra. }
  assert (Hgeo : calculate_geo_score (F := R) DEFAULT_CARRIERS DEFAULT_US_MILITARY
                   DEFAULT_IDF_ALERT DEFAULT_SENTIMENT = 73).
  { rewrite calculate_geo_score_R.
    change (military_score DEFAULT_US_MILITARY) with 32%Z.
    change (idf_score DEFAULT_IDF_ALERT) with 15%Z.
    change (Z.min DEFAULT_CARRIERS 4) with 2%Z.
    unfold DEFAULT_SENTIMENT. on_reals. lra. }
  rewrite Hnorm, Hgeo.
  assert (Hfinal : final_index (F := R) 25 73 = 39.4)
    by (rewrite final_index_R; lra).
  rewrite Hfinal.
  repeat split; try reflexivity.
  unfold level_text. rewrite level_R.
  destruct (Rlt_dec 39.4 30); [lra |].
  destruct (Rlt_dec 39.4 60); [reflexivity | lra].
Qed.

Lemma flat_market_defaults_witness :
  let result :=
    calculations (F := R) flat_market DEFAULT_CARRIERS DEFAULT_US_MILITARY
                 DEFAULT_IDF_ALERT DEFAULT_SENTIMENT in
  t_market_norm result = 25 /\
  t_geo_score result = 73 /\
  t_final_index result = 39.4 /\
  t_level_text result = "🟡 Moderate Tension".
Proof.
  apply (flat_market_defaults flat_market).
  intros ticker tf Hticker Htf. unfold flat_market.
  rewrite fill_gaps_observed by assumption. reflexivity.
Defined.

(** * The data fetch *)

Section FetchFacts.
Context {F : Type} `{PyNum F}.

Lemma iloc_from_end {A : Type} (series : list A) (k : nat) :
  (0 < k <= length series)%nat ->
  iloc series (- Z.of_nat k) = series !! (length series - k)%nat.
Proof.
  intros Hk. unfold iloc.
  destruct (Z.ltb_spec (- Z.of_nat k) 0) as [_ | Hge]; [| lia].
  destruct (Z.leb_spec 0 (Z.of_nat (length series) + - Z.of_nat k)) as [_ | Hlt];
    [| lia].
  destruct (Z.ltb_spec (Z.of_nat (length series) + - Z.of_nat k)
                       (Z.of_nat (length series))) as [_ | Hge]; [| lia].
  cbn [andb]. f_equal. lia.
Qed.

Lemma iloc_too_short {A : Type} (series : list A) (k : nat) :
  (length series < k)%nat -> iloc series (- Z.of_nat k) = None.
Proof.
  intros Hk. unfold iloc.
  destruct (Z.ltb_spec (- Z.of_nat k) 0) as [_ | Hge]; [| lia].
  destruct (Z.leb_spec 0 (Z.of_nat (length series) + - Z.of_nat k)) as [Hle | _];
    [lia | reflexivity].
Qed.

Lemma iloc_last {A : Type} (series : list A) (x : A) :
  iloc series (-1) = Some x -> last series = Some x.
Proof.
  intros Hx. change (-1)%Z with (- Z.of_nat 1)%Z in Hx.
  destruct (decide (length series = 0%nat)) as [Hnil | Hcons].
  - rewrite (iloc_too_short series 1) in Hx by lia. discriminate.
  - rewrite (iloc_from_end series 1) in Hx by lia.
    rewrite last_lookup. rewrite <- Hx. f_equal. lia.
Qed.

Lemma start_idx_lookback (tf : string) :
  start_idx tf = (- Z.of_nat (lookback tf))%Z /\ (5 <= lookback tf)%nat.
Proof.
  unfold lookback, start_idx.
  destruct (String.eqb tf "1h"); [split; [reflexivity | compute; lia] |].
  destruct (String.eqb tf "4h"); [split; [reflexivity | compute; lia] |].
  destruct (String.eqb tf "1d"); split; try reflexivity; compute; lia.
Qed.

(** One turn writes [data[tf]] and nothing else, and what it writes does
    not depend on the turns before. *)
Lemma fetch_timeframe_data (df : option (list F)) (tf : string)
    (st : fetch_state F) :
  fs_data (fetch_timeframe df tf st) = <[tf := stored_change df tf]> (fs_data st).
Proof.
  unfold stored_change, fetch_timeframe. cbv zeta.
  destruct df as [close|]; cbn [fs_data].
  2: { rewrite lookup_insert_eq. reflexivity. }
  destruct (Z.leb 5 (Z.of_nat (length close))); cbn [fs_data].
  2: { rewrite lookup_insert_eq. reflexivity. }
  destruct (iloc close (start_idx tf)) as [start_p|]; cbn [fs_data].
  2: { rewrite lookup_insert_eq. reflexivity. }
  destruct (iloc close (-1)) as [end_p|]; cbn [fs_data].
  2: { rewrite lookup_insert_eq. reflexivity. }
  destruct (feqb start_p (of_int 0)); cbn [fs_data];
    rewrite lookup_insert_eq; reflexivity.
Qed.

Lemma get_all_asset_data_data (yf_download : string -> string -> option (list F))
    (ticker : string) :
  (get_all_asset_data yf_download ticker).1 =
    <["1wk" := stored_change (yf_download ticker "1wk") "1wk"]>
      (<["1d" := stored_change (yf_download ticker "1d") "1d"]>
         (<["4h" := stored_change (yf_download ticker "4h") "4h"]>
            (<["1h" := stored_change (yf_download ticker "1h") "1h"]> ∅))).
Proof.
  unfold get_all_asset_data, TIMEFRAME_WEIGHTS. cbn [fold_left fst].
  rewrite !fetch_timeframe_data. reflexivity.
Qed.

Lemma get_all_asset_data_lookup (yf_download : string -> string -> option (list F))
    (ticker tf : string) :
  (get_all_asset_data yf_download ticker).1 !! tf =
    if bool_decide (tf ∈ timeframes)
    then Some (stored_change (yf_download ticker tf) tf) else None.
Proof.
  rewrite get_all_asset_data_data.
  destruct (decide (tf = "1wk")) as [-> | H1]; [rewrite lookup_insert_eq; reflexivity |].
  rewrite lookup_insert_ne by congruence.
  destruct (decide (tf = "1d")) as [-> | H2]; [rewrite lookup_insert_eq; reflexivity |].
  rewrite lookup_insert_ne by congruence.
  destruct (decide (tf = "4h")) as [-> | H3]; [rewrite lookup_insert_eq; reflexivity |].
  rewrite lookup_insert_ne by congruence.
  destruct (decide (tf = "1h")) as [-> | H4]; [rewrite lookup_insert_eq; reflexivity |].
  rewrite lookup_insert_ne by congruence.
  rewrite lookup_empty, bool_decide_eq_false_2; [reflexivity |].
  unfold timeframes. rewrite !elem_of_cons, elem_of_nil. tauto.
Qed.

Lemma iloc_minus_1 {A : Type} (series : list A) : iloc series (-1) = last series.
Proof.
  change (-1)%Z with (- Z.of_nat 1)%Z. rewrite last_lookup.
  destruct (decide (length series = 0%nat)) as [Hnil | Hcons].
  - rewrite iloc_too_short by lia.
    destruct series; [reflexivity | discriminate].
  - rewrite iloc_from_end by lia. f_equal. lia.
Qed.

Lemma stored_change_no_series (df : option (list F)) (tf : string) :
  df = None \/ (exists close, df = Some close /\ (length close < lookback tf)%nat) ->
  stored_change df tf = of_int 0.
Proof.
  intros Hdf. unfold stored_change, fetch_timeframe. cbv zeta.
  destruct Hdf as [-> | (close & -> & Hshort)].
  - cbn [fs_data]. rewrite lookup_insert_eq. reflexivity.
  - destruct (start_idx_lookback tf) as [Hidx _]. rewrite Hidx.
    rewrite iloc_too_short by exact Hshort.
    destruct (Z.leb 5 (Z.of_nat (length close))); cbn [fs_data];
      rewrite lookup_insert_eq; reflexivity.
Qed.

Lemma stored_change_series (close : list F) (tf : string) (start_p end_p : F) :
  (lookback tf <= length close)%nat ->
  close !! (length close - lookback tf)%nat = Some start_p ->
  last close = Some end_p ->
  stored_change (Some close) tf =
    if feqb start_p (of_int 0) then of_int 0
    else fmul (fdiv (fsub end_p start_p) start_p) (of_int 100).
Proof.
  intros Hlong Hstart Hend. unfold stored_change, fetch_timeframe. cbv zeta.
  destruct (start_idx_lookback tf) as [Hidx Hfive]. rewrite Hidx.
  rewrite iloc_from_end by lia. rewrite Hstart, iloc_minus_1, Hend.
  destruct (Z.leb_spec 5 (Z.of_nat (length close))) as [_ | Hlt]; [| lia].
  destruct (feqb start_p (of_int 0)); cbn [fs_data];
    rewrite lookup_insert_eq; reflexivity.
Qed.

Lemma get_all_asset_data_series
    (yf_download : string -> string -> option (list F)) (ticker tf : string)
    (close : list F) (start_p end_p : F) :
  tf ∈ timeframes ->
  yf_download ticker tf = Some close ->
  (lookback tf <= length close)%nat ->
  close !! (length close - lookback tf)%nat = Some start_p ->
  last close = Some end_p ->
  (get_all_asset_data yf_download ticker).1 !! tf =
    Some (if feqb start_p (of_int 0) then of_int 0
          else fmul (fdiv (fsub end_p start_p) start_p) (of_int 100)).
Proof.
  intros Htf Hdf Hlong Hstart Hend.
  rewrite get_all_asset_data_lookup, bool_decide_eq_true_2 by exact Htf.
  rewrite Hdf, (stored_change_series close tf start_p end_p) by assumption.
  reflexivity.
Qed.

(** X1: whatever the downloads do, the [data] returned has the four
    timeframes as keys and no other key. *)
Theorem get_all_asset_data_keys
    (yf_download : string -> string -> option (list F)) (ticker tf : string) :
  is_Some ((get_all_asset_data yf_download ticker).1 !! tf) <-> tf ∈ timeframes.
Proof.
  rewrite get_all_asset_data_lookup.
  destruct (decide (tf ∈ timeframes)) as [Hin | Hout].
  - rewrite bool_decide_eq_true_2 by exact Hin. split; [intros _; exact Hin | eauto].
  - rewrite bool_decide_eq_false_2 by exact Hout.
    split; [intros [x Hx]; discriminate | contradiction].
Qed.

(** X2: a timeframe whose download raises, or whose series has fewer rows
    than its look-back (12, 16, 24 and 5), is stored as the change 0.0. *)
Theorem fetch_without_series_is_zero
    (yf_download : string -> string -> option (list F)) (ticker tf : string) :
  tf ∈ timeframes ->
  yf_download ticker tf = None \/
  (exists close, yf_download ticker tf = Some close /\
                 (length close < lookback tf)%nat) ->
  lookback "1h" = 12%nat /\ lookback "4h" = 16%nat /\
  lookback "1d" = 24%nat /\ lookback "1wk" = 5%nat /\
  (get_all_asset_data yf_download ticker).1 !! tf = Some (of_int 0).
Proof.
  intros Htf Hdf. repeat (split; [reflexivity |]).
  rewrite get_all_asset_data_lookup, bool_decide_eq_true_2 by exact Htf.
  rewrite stored_change_no_series by exact Hdf. reflexivity.
Qed.

(** X3: a series at least as long as the look-back is stored as the
    percentage change from the close [lookback] rows before the end to the
    last close, and as 0.0 when that earlier close is zero (the division
    error is swallowed). *)
Theorem fetch_series_change
    (yf_download : string -> string -> option (list F)) (ticker tf : string)
    (close : list F) (start_p end_p : F) :
  tf ∈ timeframes ->
  yf_download ticker tf = Some close ->
  (lookback tf <= length close)%nat ->
  close !! (length close - lookback tf)%nat = Some start_p ->
  last close = Some end_p ->
  (get_all_asset_data yf_download ticker).1 !! tf =
    Some (if feqb start_p (of_int 0) then of_int 0
          else fmul (fdiv (fsub end_p start_p) start_p) (of_int 100)).
Proof.
  intros Htf Hdf Hlong Hstart Hend.
  apply (get_all_asset_data_series yf_download ticker tf close); assumption.
Qed.
End FetchFacts.

Lemma get_all_asset_data_keys_witness :
  is_Some ((get_all_asset_data weekly_only "GC=F").1 !! "4h") /\
  ~ is_Some ((get_all_asset_data weekly_only "GC=F").1 !! "1mo").
Proof.
  split.
  - apply get_all_asset_data_keys. compute_done.
  - rewrite get_all_asset_data_keys. compute_done.
Defined.

Lemma fetch_without_series_is_zero_witness :
  lookback "1h" = 12%nat /\ lookback "4h" = 16%nat /\
  lookback "1d" = 24%nat /\ lookback "1wk" = 5%nat /\
  (get_all_asset_data weekly_only "GC=F").1 !! "1h" = Some 0.
Proof.
  refine (fetch_without_series_is_zero (F := R) weekly_only "GC=F" "1h" _ _).
  - compute_done.
  - left. reflexivity.
Defined.

Lemma fetch_series_change_witness :
  (get_all_asset_data weekly_only "GC=F").1 !! "1wk"
  = Some (if Reqb 100 0 then 0 else (110 - 100) / 100 * 100).
Proof.
  refine (fetch_series_change (F := R) weekly_only "GC=F" "1wk"
            [100; 101; 102; 103; 110] 100 110 _ _ _ _ _);
    [compute_done | reflexivity | change (5 <= 5)%nat; lia | reflexivity | reflexivity].
Defined.

(** ** The current price *)

Section PriceFacts.
Context {F : Type} `{PyNum F}.
Variable yf_download : string -> string -> option (list F).
Variable ticker : string.

Lemma update_price_inv (st : fetch_state F) (end_p : option F) :
  price_inv yf_download ticker st ->
  (forall e, end_p = Some e -> is_last_close yf_download ticker e) ->
  update_price (fs_current_price st) end_p = of_int 0 \/
  is_last_close yf_download ticker (update_price (fs_current_price st) end_p).
Proof.
  intros [Hprice _] Hend. unfold update_price.
  destruct end_p as [e|]; [| exact Hprice].
  destruct (feqb (fs_current_price st) (of_int 0)); [| exact Hprice].
  right. apply Hend. reflexivity.
Qed.

Lemma fetch_timeframe_price_inv (tf : string) (st : fetch_state F) :
  tf ∈ timeframes -> price_inv yf_download ticker st ->
  price_inv yf_download ticker (fetch_timeframe (yf_download ticker tf) tf st).
Proof.
  intros Htf Hinv. pose proof Hinv as [Hprice Hend].
  unfold fetch_timeframe. cbv zeta.
  destruct (yf_download ticker tf) as [close|] eqn:Hdf; [| exact Hinv].
  destruct (Z.leb 5 (Z.of_nat (length close))).
  - destruct (iloc close (start_idx tf)) as [start_p|]; [| exact Hinv].
    destruct (iloc close (-1)) as [end_p|] eqn:Hlast; [| exact Hinv].
    assert (Hnew : forall e, Some end_p = Some e ->
                             is_last_close yf_download ticker e).
    { intros e [= <-]. exists tf, close.
      split; [exact Htf |]. split; [exact Hdf |]. apply iloc_last, Hlast. }
    destruct (feqb start_p (of_int 0)).
    + split; [exact Hprice | exact Hnew].
    + split; [| exact Hnew]. cbn [fs_current_price].
      apply update_price_inv; assumption.
  - split; [| exact Hend]. cbn [fs_current_price].
    apply update_price_inv; assumption.
Qed.

(** X4: the price returned is 0.0 or the last close of one of the four
    downloaded series; no other number is ever reported. *)
Theorem current_price_zero_or_last_close :
  (get_all_asset_data yf_download ticker).2 = of_int 0 \/
  exists tf close,
    tf ∈ timeframes /\ yf_download ticker tf = Some close /\
    last close = Some (get_all_asset_data yf_download ticker).2.
Proof.
  unfold get_all_asset_data, TIMEFRAME_WEIGHTS. cbn [fold_left snd].
  assert (Hinit : price_inv yf_download ticker (FetchState ∅ (of_int 0) None)).
  { split; [left; reflexivity | intros e [=]]. }
  apply (fetch_timeframe_price_inv "1h") in Hinit; [| compute_done].
  apply (fetch_timeframe_price_inv "4h") in Hinit; [| compute_done].
  apply (fetch_timeframe_price_inv "1d") in Hinit; [| compute_done].
  apply (fetch_timeframe_price_inv "1wk") in Hinit; [| compute_done].
  exact (proj1 Hinit).
Qed.
End PriceFacts.

Lemma Reqb_true x : Reqb x x = true.
Proof. unfold Reqb. destruct (Req_dec_T x x); [reflexivity | contradiction]. Qed.

(** Once the price is not zero, no later turn changes it. *)
Lemma fetch_timeframe_price_kept (df : option (list R)) (tf : string)
    (st : fetch_state R) :
  fs_current_price st <> 0 ->
  fs_current_price (fetch_timeframe df tf st) = fs_current_price st.
Proof.
  intros Hset. unfold fetch_timeframe, update_price. cbv zeta.
  change (@feqb R RNum) with Reqb. change (of_int 0%Z) with 0.
  destruct df as [close|]; [| reflexivity].
  destruct (Z.leb 5 (Z.of_nat (length close))).
  - destruct (iloc close (start_idx tf)) as [start_p|]; [| reflexivity].
    destruct (iloc close (-1)) as [end_p|]; [| reflexivity].
    destruct (Reqb start_p 0); [reflexivity |].
    cbn [fs_current_price]. rewrite Reqb_false by exact Hset. reflexivity.
  - cbn [fs_current_price]. destruct (fs_end_p st); [| reflexivity].
    rewrite Reqb_false by exact Hset. reflexivity.
Qed.

Lemma fetch_timeframe_price_stays (df : option (list R)) (tf : string)
    (st : fetch_state R) (price : R) :
  fs_current_price st = price -> price <> 0 ->
  fs_current_price (fetch_timeframe df tf st) = price.
Proof.
  intros <- Hset. apply fetch_timeframe_price_kept, Hset.
Qed.

(** The first turn on a series long enough for the hour. *)
Lemma fetch_first_hour (close : list R) (start_p end_p : R) :
  (12 <= length close)%nat ->
  close !! (length close - 12)%nat = Some start_p ->
  last close = Some end_p ->
  fetch_timeframe (Some close) "1h" (FetchState ∅ 0 None) =
    if Reqb start_p 0
    then FetchState (<["1h" := 0]> ∅) 0 (Some end_p)
    else FetchState (<["1h" := (end_p - start_p) / start_p * 100]> ∅) end_p
                    (Some end_p).
Proof.
  intros Hlong Hstart Hend. unfold fetch_timeframe. cbv zeta.
  change (start_idx "1h") with (- Z.of_nat 12)%Z.
  rewrite iloc_from_end by lia. rewrite Hstart, iloc_minus_1, Hend.
  destruct (Z.leb_spec 5 (Z.of_nat (length close))) as [_ | Hlt]; [| lia].
  change (@feqb R RNum) with Reqb. change (of_int 0%Z) with 0.
  destruct (Reqb start_p 0); [reflexivity |].
  unfold update_price. cbn [fs_current_price fs_data].
  change (@feqb R RNum) with Reqb. change (of_int 0%Z) with 0.
  rewrite Reqb_true. reflexivity.
Qed.

(** X5: when the hourly series is complete (twelve rows or more, a start
    price and a last close that are not zero), the price returned is its
    last close, whatever the other three downloads give. *)
Theorem current_price_from_first_timeframe
    (yf_download : string -> string -> option (list R)) (ticker : string)
    (close : list R) (start_p end_p : R) :
  yf_download ticker "1h" = Some close ->
  (12 <= length close)%nat ->
  close !! (length close - 12)%nat = Some start_p ->
  last close = Some end_p ->
  start_p <> 0 -> end_p <> 0 ->
  (get_all_asset_data yf_download ticker).2 = end_p.
Proof.
  intros Hdf Hlong Hstart Hend Hs He.
  unfold get_all_asset_data, TIMEFRAME_WEIGHTS. cbn [fold_left snd].
  change (of_int 0%Z) with 0.
  rewrite Hdf, (fetch_first_hour close start_p end_p) by assumption.
  rewrite Reqb_false by exact Hs.
  do 3 (apply fetch_timeframe_price_stays; [| exact He]).
  reflexivity.
Qed.

Lemma current_price_from_first_timeframe_witness :
  (get_all_asset_data hourly_only "CL=F").2 = 55.
Proof.
  refine (current_price_from_first_timeframe hourly_only "CL=F"
            (repeat 50 11 ++ [55])%list 50 55 _ _ _ _ _ _);
    [reflexivity | change (12 <= 12)%nat; lia | reflexivity | reflexivity
    | lra | lra].
Defined.

(** X6: the price can come from a series whose change was discarded.  When
    the hourly series starts at the price zero its change is stored as 0.0,
    yet its last close stays bound, and a four-hour frame of fewer than
    five rows then reports it as the price. *)
Theorem current_price_from_discarded_series
    (yf_download : string -> string -> option (list R)) (ticker : string)
    (close short : list R) (end_p : R) :
  yf_download ticker "1h" = Some close ->
  (12 <= length close)%nat ->
  close !! (length close - 12)%nat = Some 0 ->
  last close = Some end_p -> end_p <> 0 ->
  yf_download ticker "4h" = Some short -> (length short < 5)%nat ->
  (get_all_asset_data yf_download ticker).1 !! "1h" = Some 0 /\
  (get_all_asset_data yf_download ticker).2 = end_p.
Proof.
  intros Hdf Hlong Hstart Hend He Hdf4 Hshort. split.
  - rewrite (get_all_asset_data_series yf_download ticker "1h" close 0 end_p);
      try assumption; [| compute_done].
    change (@feqb R RNum) with Reqb. change (of_int 0%Z) with 0.
    rewrite Reqb_true. reflexivity.
  - unfold get_all_asset_data, TIMEFRAME_WEIGHTS. cbn [fold_left snd].
    change (of_int 0%Z) with 0.
    rewrite Hdf, (fetch_first_hour close 0 end_p) by assumption.
    rewrite Reqb_true, Hdf4.
    assert (Hturn : fs_current_price
              (fetch_timeframe (Some short) "4h"
                 (FetchState (<["1h" := 0]> ∅) 0 (Some end_p))) = end_p).
    { unfold fetch_timeframe, update_price. cbv zeta.
      destruct (Z.leb_spec 5 (Z.of_nat (length short))) as [Hge | _]; [lia |].
      cbn [fs_current_price fs_end_p].
      change (@feqb R RNum) with Reqb. change (of_int 0%Z) with 0.
      rewrite Reqb_true. reflexivity. }
    do 2 (apply fetch_timeframe_price_stays; [| exact He]).
    exact Hturn.
Qed.

Lemma current_price_from_discarded_series_witness :
  (get_all_asset_data zero_start "CL=F").1 !! "1h" = Some 0 /\
  (get_all_asset_data zero_start "CL=F").2 = 55.
Proof.
  refine (current_price_from_discarded_series zero_start "CL=F"
            (0 :: repeat 50 10 ++ [55])%list [] 55 _ _ _ _ _ _ _);
    [reflexivity | change (12 <= 12)%nat; lia | reflexivity | reflexivity
    | lra | reflexivity | cbn; lia].
Defined.

(** X7: for a positive start price and a last close that is not negative
    the stored change is at least -100, it is positive exactly when the
    price rose and zero exactly when it did not move. *)
Theorem fetch_change_bounds
    (yf_download : string -> string -> option (list R)) (ticker tf : string)
    (close : list R) (start_p end_p : R) :
  tf ∈ timeframes ->
  yf_download ticker tf = Some close ->
  (lookback tf <= length close)%nat ->
  close !! (length close - lookback tf)%nat = Some start_p ->
  last close = Some end_p ->
  0 < start_p -> 0 <= end_p ->
  exists change,
    (get_all_asset_data yf_download ticker).1 !! tf = Some change /\
    -100 <= change /\
    (0 < change <-> start_p < end_p) /\
    (change = 0 <-> end_p = start_p).
Proof.
  intros Htf Hdf Hlong Hstart Hend Hs He.
  exists ((end_p - start_p) / start_p * 100).
  split.
  - rewrite (get_all_asset_data_series yf_download ticker tf close start_p end_p)
      by assumption.
    change (@feqb R RNum) with Reqb. change (of_int 0%Z) with 0.
    rewrite Reqb_false by lra. reflexivity.
  - assert (Hinv : 0 < / start_p) by (apply Rinv_0_lt_compat; exact Hs).
    assert (Hq : (end_p - start_p) / start_p * start_p = end_p - start_p).
    { unfold Rdiv. rewrite Rmult_assoc, Rinv_l by lra. lra. }
    unfold Rdiv in *. repeat split; intros; nra.
Qed.

Lemma fetch_change_bounds_witness :
  exists change,
    (get_all_asset_data weekly_only "GC=F").1 !! "1wk" = Some change /\
    -100 <= change /\
    (0 < change <-> 100 < 110) /\
    (change = 0 <-> 110 = 100).
Proof.
  refine (fetch_change_bounds weekly_only "GC=F" "1wk"
            [100; 101; 102; 103; 110] 100 110 _ _ _ _ _ _ _);
    [compute_done | reflexivity | change (5 <= 5)%nat; lia | reflexivity
    | reflexivity | lra | lra].
Defined.

(** ** From the fetch to the index *)

Section AllDataFacts.
Context {F : Type} `{PyNum F}.
Variable yf_download : string -> string -> option (list F).

Lemma fetch_all_data_lookup (ticker : string) :
  fetch_all_data yf_download !! ticker =
    if bool_decide (ticker ∈ tickers)
    then Some (AssetEntry (Some (get_all_asset_data yf_download ticker).1)
                          (Some (get_all_asset_data yf_download ticker).2))
    else None.
Proof.
  unfold fetch_all_data, ASSETS. cbn [fold_left].
  repeat match goal with
         | |- context [let '(d, p) := get_all_asset_data ?dl ?t in _] =>
             rewrite (surjective_pairing (get_all_asset_data dl t))
         end.
  cbn [fst snd].
  destruct (decide (ticker = "^VIX"))
    as [-> | H1]; [rewrite lookup_insert_eq; reflexivity |].
  rewrite lookup_insert_ne by congruence.
  destruct (decide (ticker = "RTX"))
    as [-> | H2]; [rewrite lookup_insert_eq; reflexivity |].
  rewrite lookup_insert_ne by congruence.
  destruct (decide (ticker = "LMT"))
    as [-> | H3]; [rewrite lookup_insert_eq; reflexivity |].
  rewrite lookup_insert_ne by congruence.
  destruct (decide (ticker = "BTC-USD"))
    as [-> | H4]; [rewrite lookup_insert_eq; reflexivity |].
  rewrite lookup_insert_ne by congruence.
  destruct (decide (ticker = "GC=F"))
    as [-> | H5]; [rewrite lookup_insert_eq; reflexivity |].
  rewrite lookup_insert_ne by congruence.
  destruct (decide (ticker = "CL=F"))
    as [-> | H6]; [rewrite lookup_insert_eq; reflexivity |].
  rewrite lookup_insert_ne by congruence.
  rewrite lookup_empty, bool_decide_eq_false_2; [reflexivity |].
  unfold tickers. rewrite !elem_of_cons, elem_of_nil. tauto.
Qed.

Lemma fetch_all_data_observed (ticker tf : string) :
  ticker ∈ tickers -> tf ∈ timeframes ->
  observed (fetch_all_data yf_download) ticker tf
  = Some (stored_change (yf_download ticker tf) tf).
Proof.
  intros Hticker Htf. unfold observed.
  rewrite fetch_all_data_lookup, bool_decide_eq_true_2 by exact Hticker.
  cbn [entry_data].
  rewrite get_all_asset_data_lookup, bool_decide_eq_true_2 by exact Htf.
  reflexivity.
Qed.

(** X8: the snapshot the script builds holds every instrument with its
    ["data"] and ["price"], and a change for each of the four timeframes:
    on it the aggregator never falls back on a default, and the two
    subscripts of a market card never raise, whatever timeframe is
    selected. *)
Theorem fetch_all_data_complete (ticker : string) (info : asset_info F)
    (tf : string) (selected : session_value F) :
  (ticker, info) ∈ ASSETS -> tf ∈ timeframes ->
  (exists d p, fetch_all_data yf_download !! ticker
               = Some (AssetEntry (Some d) (Some p))) /\
  is_Some (get_asset_data (fetch_all_data yf_download) ticker !! tf) /\
  is_Some (card_change (fetch_all_data yf_download) ticker info selected).
Proof.
  intros Hasset Htf.
  assert (Hticker : ticker ∈ tickers).
  { rewrite <- (ASSETS_keys (F := F)).
    apply (list_elem_of_fmap_2 fst) in Hasset. exact Hasset. }
  split; [| split].
  - rewrite fetch_all_data_lookup, bool_decide_eq_true_2 by exact Hticker.
    eauto.
  - rewrite get_asset_data_observed, fetch_all_data_observed by assumption.
    eauto.
  - unfold card_change.
    rewrite fetch_all_data_lookup, bool_decide_eq_true_2 by exact Hticker.
    cbn [entry_data]. eauto.
Qed.
End AllDataFacts.

Lemma fetch_all_data_complete_witness :
  (exists d p, fetch_all_data weekly_only !! "BTC-USD"
               = Some (AssetEntry (Some d) (Some p))) /\
  is_Some (get_asset_data (fetch_all_data weekly_only) "BTC-USD" !! "1d") /\
  is_Some (card_change (fetch_all_data weekly_only) "BTC-USD"
                       (AssetInfo "Bitcoin" (dec 18 100) (-1)) (SStr "1d")).
Proof.
  refine (fetch_all_data_complete (F := R) weekly_only "BTC-USD"
            (AssetInfo "Bitcoin" (dec 18 100) (-1)) "1d" (SStr "1d") _ _).
  - unfold ASSETS. rewrite !elem_of_cons. right. right. left. reflexivity.
  - compute_done.
Defined.

Lemma fetch_timeframe_no_series {F : Type} `{PyNum F} (df : option (list F))
    (tf : string) (st : fetch_state F) :
  no_series df tf -> fs_end_p st = None ->
  fs_current_price (fetch_timeframe df tf st) = fs_current_price st /\
  fs_end_p (fetch_timeframe df tf st) = None.
Proof.
  intros Hdf Hend. unfold fetch_timeframe. cbv zeta.
  destruct Hdf as [-> | (close & -> & Hshort)]; [split; [reflexivity | exact Hend] |].
  destruct (start_idx_lookback tf) as [Hidx _]. rewrite Hidx.
  rewrite iloc_too_short by exact Hshort.
  destruct (Z.leb 5 (Z.of_nat (length close))); cbn [fs_current_price fs_end_p].
  - split; [reflexivity | exact Hend].
  - rewrite Hend. split; reflexivity.
Qed.

Lemma current_price_no_series {F : Type} `{PyNum F}
    (yf_download : string -> string -> option (list F)) (ticker : string) :
  (forall tf, tf ∈ timeframes -> no_series (yf_download ticker tf) tf) ->
  (get_all_asset_data yf_download ticker).2 = of_int 0.
Proof.
  intros Hnone. unfold get_all_asset_data, TIMEFRAME_WEIGHTS. cbn [fold_left snd].
  pose proof (fetch_timeframe_no_series (yf_download ticker "1h") "1h"
                (FetchState ∅ (of_int 0) None) (Hnone "1h" ltac:(compute_done))
                eq_refl) as [Hp1 He1].
  pose proof (fetch_timeframe_no_series (yf_download ticker "4h") "4h" _
                (Hnone "4h" ltac:(compute_done)) He1) as [Hp2 He2].
  pose proof (fetch_timeframe_no_series (yf_download ticker "1d") "1d" _
                (Hnone "1d" ltac:(compute_done)) He2) as [Hp3 He3].
  pose proof (fetch_timeframe_no_series (yf_download ticker "1wk") "1wk" _
                (Hnone "1wk" ltac:(compute_done)) He3) as [Hp4 _].
  rewrite Hp4, Hp3, Hp2, Hp1. reflexivity.
Qed.

(** The pass on a snapshot whose raw signal is zero, with the default
    geopolitical inputs. *)
Lemma calculations_at_raw_zero (all_data : gmap string (asset_entry R)) :
  calculate_market_raw all_data = 0 ->
  calculations all_data DEFAULT_CARRIERS DEFAULT_US_MILITARY DEFAULT_IDF_ALERT
               DEFAULT_SENTIMENT
  = Tension 0 25 73 39.4 "🟡 Moderate Tension" "#facc15".
Proof.
  intros Hraw. unfold calculations. rewrite Hraw.
  assert (Hnorm : normalize_market (F := R) 0 = 25).
  { rewrite normalize_market_nonneg by lra.
    unfold Rmin. destruct (Rle_dec 100 (25 + 0 / 10 * 75)); lra. }
  assert (Hgeo : calculate_geo_score (F := R) DEFAULT_CARRIERS DEFAULT_US_MILITARY
                   DEFAULT_IDF_ALERT DEFAULT_SENTIMENT = 73).
  { rewrite calculate_geo_score_R.
    change (military_score DEFAULT_US_MILITARY) with 32%Z.
    change (idf_score DEFAULT_IDF_ALERT) with 15%Z.
    change (Z.min DEFAULT_CARRIERS 4) with 2%Z.
    unfold DEFAULT_SENTIMENT. on_reals. lra. }
  rewrite Hnorm, Hgeo.
  assert (Hfinal : final_index (F := R) 25 73 = 39.4)
    by (rewrite final_index_R; lra).
  rewrite Hfinal. unfold level_text, level_color. rewrite level_R.
  destruct (Rlt_dec 39.4 30); [lra |].
  destruct (Rlt_dec 39.4 60); [reflexivity | lra].
Qed.

(** X9: when no download gives a usable series (the provider is down, or
    every frame is too short), the page still computes: every change and
    every price is 0.0, the market score is 25 and, with the default
    geopolitical inputs, the index is 39.4, Moderate. *)
Theorem outage_reads_moderate
    (yf_download : string -> string -> option (list R)) :
  (forall ticker tf, ticker ∈ tickers -> tf ∈ timeframes ->
     no_series (yf_download ticker tf) tf) ->
  calculations (fetch_all_data yf_download) DEFAULT_CARRIERS
               DEFAULT_US_MILITARY DEFAULT_IDF_ALERT DEFAULT_SENTIMENT
  = Tension 0 25 73 39.4 "🟡 Moderate Tension" "#facc15" /\
  (forall ticker tf, ticker ∈ tickers -> tf ∈ timeframes ->
     observed (fetch_all_data yf_download) ticker tf = Some 0) /\
  (forall ticker, ticker ∈ tickers ->
     (get_all_asset_data yf_download ticker).2 = 0).
Proof.
  intros Hdown.
  assert (Hflat : forall ticker tf, ticker ∈ tickers -> tf ∈ timeframes ->
            observed (fetch_all_data yf_download) ticker tf = Some 0).
  { intros ticker tf Hticker Htf.
    rewrite fetch_all_data_observed by assumption.
    rewrite stored_change_no_series; [reflexivity |].
    apply (Hdown ticker tf Hticker Htf). }
  split; [| split].
  - apply calculations_at_raw_zero, calculate_market_raw_flat, Hflat.
  - exact Hflat.
  - intros ticker Hticker.
    refine (current_price_no_series (F := R) yf_download ticker _).
    intros tf Htf. apply Hdown; assumption.
Qed.

Lemma outage_reads_moderate_witness :
  calculations (fetch_all_data (F := R) outage) DEFAULT_CARRIERS
               DEFAULT_US_MILITARY DEFAULT_IDF_ALERT DEFAULT_SENTIMENT
  = Tension 0 25 73 39.4 "🟡 Moderate Tension" "#facc15" /\
  (forall ticker tf, ticker ∈ tickers -> tf ∈ timeframes ->
     observed (fetch_all_data (F := R) outage) ticker tf = Some 0) /\
  (forall ticker, ticker ∈ tickers ->
     (get_all_asset_data (F := R) outage ticker).2 = 0).
Proof.
  apply (outage_reads_moderate outage).
  intros ticker tf _ _. left. reflexivity.
Defined.

(** ** The market cards *)

Lemma card_color_R (shown : R) :
  (card_color shown = "#10b981" <-> 0 <= shown) /\
  (card_color shown = "#ef4444" <-> shown < 0) /\
  (card_arrow shown = "▲" <-> 0 <= shown) /\
  (card_arrow shown = "▼" <-> shown < 0).
Proof.
  unfold card_color, card_arrow.
  change (fleb (of_int 0%Z) shown) with (Rleb 0 shown). unfold Rleb.
  destruct (Rle_dec 0 shown);
    repeat split; intros; try reflexivity; try lra; discriminate.
Qed.

(** X10: a card shows the recorded change of the selected timeframe times
    the direction of the instrument: Bitcoin, the one instrument of
    direction -1, shows a rise of its price as a fall (red, pointing down);
    the five others show it as it is.  Green and the upward arrow go with a
    figure that is zero or more. *)
Theorem card_follows_direction (all_data : gmap string (asset_entry R))
    (ticker : string) (info : asset_info R) (key : string) (change : R) :
  (ticker, info) ∈ ASSETS ->
  observed all_data ticker key = Some change ->
  exists shown,
    card_change all_data ticker info (SStr key) = Some shown /\
    shown = (if String.eqb ticker "BTC-USD" then - change else change) /\
    (card_color shown = "#10b981" <-> 0 <= shown) /\
    (card_color shown = "#ef4444" <-> shown < 0) /\
    (card_arrow shown = "▲" <-> 0 <= shown) /\
    (card_arrow shown = "▼" <-> shown < 0).
Proof.
  intros Hasset Hobs.
  exists (change * IZR (direction info)).
  split; [| split; [| apply card_color_R]].
  - unfold card_change, get_change. unfold observed in Hobs.
    destruct (all_data !! ticker) as [[[data|] price]|]; try discriminate.
    cbn [entry_data] in *. rewrite Hobs. reflexivity.
  - unfold ASSETS in Hasset.
    repeat (apply elem_of_cons in Hasset as [[= -> ->] | Hasset];
            [cbn [direction String.eqb Ascii.eqb Bool.eqb]; lra |]).
    apply elem_of_nil in Hasset as [].
Qed.

Lemma card_follows_direction_witness :
  exists shown,
    card_change btc_rally "BTC-USD"
                (AssetInfo "Bitcoin" (dec 18 100) (-1)) (SStr "1d")
    = Some shown /\
    shown = (if String.eqb "BTC-USD" "BTC-USD" then - 5 else 5) /\
    (card_color shown = "#10b981" <-> 0 <= shown) /\
    (card_color shown = "#ef4444" <-> shown < 0) /\
    (card_arrow shown = "▲" <-> 0 <= shown) /\
    (card_arrow shown = "▼" <-> shown < 0).
Proof.
  refine (card_follows_direction btc_rally "BTC-USD"
            (AssetInfo "Bitcoin" (dec 18 100) (-1)) "1d" 5 _ _).
  - unfold ASSETS. rewrite !elem_of_cons. right. right. left. reflexivity.
  - reflexivity.
Defined.

(** X11: the raw signal is the weighted sum of the figures on the cards:
    for every instrument, the card figure of each timeframe times the
    timeframe weight, summed and times the instrument weight; a card that
    cannot be drawn counts as zero. *)
Theorem market_raw_sums_the_cards (all_data : gmap string (asset_entry R)) :
  calculate_market_raw all_data =
    Rsum (map (fun '(ticker, info) =>
                 Rsum (map (fun '(tf, w) =>
                              default 0 (card_change all_data ticker info (SStr tf))
                                * w)
                           TIMEFRAME_WEIGHTS)
                   * weight info)
              ASSETS).
Proof.
  rewrite calculate_market_raw_R. f_equal.
  apply map_ext. intros [ticker info].
  unfold asset_contribution. cbn [fst snd]. f_equal. f_equal.
  apply map_ext. intros [tf w]. f_equal.
  unfold card_change, get_change, observed.
  destruct (all_data !! ticker) as [[[data|] price]|]; cbn [entry_data default];
    unfold Datatypes.id; try lra.
  reflexivity.
Qed.

(** ** The raw signal as a function of the changes *)

Lemma observed_insert {F : Type} (all_data : gmap string (asset_entry F))
    (ticker other tf : string) (data : gmap string F) (price : option F) :
  observed (<[ticker := AssetEntry (Some data) price]> all_data) other tf
  = if String.eqb other ticker then data !! tf else observed all_data other tf.
Proof.
  unfold observed. destruct (String.eqb_spec other ticker) as [-> | Hne].
  - rewrite lookup_insert_eq. reflexivity.
  - rewrite lookup_insert_ne by congruence. reflexivity.
Qed.

Lemma lookup_insert_eqb {V : Type} (data : gmap string V) (key other : string)
    (v : V) :
  <[key := v]> data !! other = if String.eqb other key then Some v else data !! other.
Proof.
  destruct (String.eqb_spec other key) as [-> | Hne].
  - apply lookup_insert_eq.
  - apply lookup_insert_ne. congruence.
Qed.

Lemma observed_record_change (all_data : gmap string (asset_entry R))
    (ticker tf other tf' : string) (change : R) :
  observed (record_change all_data ticker tf change) other tf'
  = if String.eqb other ticker
    then if String.eqb tf' tf then Some change else observed all_data ticker tf'
    else observed all_data other tf'.
Proof.
  unfold record_change. rewrite observed_insert.
  destruct (String.eqb other ticker); [| reflexivity].
  rewrite lookup_insert_eqb.
  destruct (String.eqb tf' tf); [reflexivity | apply get_asset_data_observed].
Qed.

Lemma normalize_market_monotone (raw raw' : R) :
  raw <= raw' -> normalize_market raw <= normalize_market raw'.
Proof.
  intros Hle.
  destruct (Rle_lt_dec 0 raw) as [Hpos | Hneg].
  - rewrite !normalize_market_nonneg by lra.
    apply Rle_min_compat_l. lra.
  - rewrite (normalize_market_decay raw) by assumption.
    pose proof (decay_pos raw Hneg) as Hdecay.
    destruct (Rle_lt_dec 0 raw') as [Hpos' | Hneg'].
    + rewrite normalize_market_nonneg by assumption.
      apply Rmax_lub; apply Rmin_glb; lra.
    + rewrite normalize_market_decay by assumption.
      pose proof (decay_antitone raw raw' Hle Hneg').
      apply Rle_max_compat_l. lra.
Qed.


Ltac in_assets :=
  unfold ASSETS; rewrite !elem_of_cons;
  repeat first [left; reflexivity | right].

(** X12: the raw signal follows each recorded change in the direction of
    its instrument.  Recording a change that is larger once multiplied by
    the direction (a larger rise for the five instruments of direction 1, a
    larger fall for Bitcoin) never lowers the raw signal nor the market
    score; this holds whether or not the instrument had an entry before,
    and no other recorded change is touched. *)
Theorem market_raw_follows_direction (all_data : gmap string (asset_entry R))
    (ticker : string) (info : asset_info R) (tf : string) (change change' : R) :
  (ticker, info) ∈ ASSETS -> tf ∈ timeframes ->
  change * IZR (direction info) <= change' * IZR (direction info) ->
  calculate_market_raw (record_change all_data ticker tf change)
  <= calculate_market_raw (record_change all_data ticker tf change') /\
  normalize_market (calculate_market_raw (record_change all_data ticker tf change))
  <= normalize_market
       (calculate_market_raw (record_change all_data ticker tf change')) /\
  (forall other tf', other <> ticker \/ tf' <> tf ->
     observed (record_change all_data ticker tf change) other tf'
     = observed all_data other tf').
Proof.
  intros Hasset Htf Hle.
  assert (Hraw : calculate_market_raw (record_change all_data ticker tf change)
                 <= calculate_market_raw (record_change all_data ticker tf change')).
  { rewrite !calculate_market_raw_R.
    unfold asset_contribution. unfold ASSETS, TIMEFRAME_WEIGHTS, timeframes in *.
    cbn [map fst snd Rsum fold_right direction weight].
    repeat (apply elem_of_cons in Hasset as [[= -> ->] | Hasset];
            [repeat (apply elem_of_cons in Htf as [-> | Htf];
                     [rewrite !observed_record_change;
                      cbn [String.eqb Ascii.eqb Bool.eqb];
                      cbn [default direction weight] in *; unfold Datatypes.id;
                      on_reals; lra |]);
             apply elem_of_nil in Htf as [] |]).
    apply elem_of_nil in Hasset as []. }
  split; [exact Hraw |].
  split; [apply normalize_market_monotone; exact Hraw |].
  intros other tf' Hother. rewrite observed_record_change.
  destruct (String.eqb_spec other ticker) as [-> | Hne]; [| reflexivity].
  destruct (String.eqb_spec tf' tf) as [-> | Hne']; [| reflexivity].
  destruct Hother as [Hother | Hother]; contradiction.
Qed.

Lemma market_raw_follows_direction_witness :
  calculate_market_raw (record_change partial_data "BTC-USD" "1d" 4)
  <= calculate_market_raw (record_change partial_data "BTC-USD" "1d" (-6)) /\
  normalize_market (calculate_market_raw (record_change partial_data "BTC-USD" "1d" 4))
  <= normalize_market
       (calculate_market_raw (record_change partial_data "BTC-USD" "1d" (-6))) /\
  (forall other tf', other <> "BTC-USD" \/ tf' <> "1d" ->
     observed (record_change partial_data "BTC-USD" "1d" 4) other tf'
     = observed partial_data other tf').
Proof.
  refine (market_raw_follows_direction partial_data "BTC-USD"
            (AssetInfo "Bitcoin" (dec 18 100) (-1)) "1d" 4 (-6) _ _ _).
  - in_assets.
  - compute_done.
  - cbn [direction]. lra.
Defined.



(** ** Monotonicity of the whole pass *)

Lemma calculate_geo_score_monotone (carriers carriers' : Z)
    (us_military idf_alert : string) (sentiment sentiment' : R) :
  (carriers <= carriers')%Z -> sentiment <= sentiment' ->
  calculate_geo_score carriers us_military idf_alert sentiment
  <= calculate_geo_score carriers' us_military idf_alert sentiment'.
Proof.
  intros Hc Hs. rewrite !calculate_geo_score_R.
  assert (Hmin : (Z.min carriers 4 <= Z.min carriers' 4)%Z) by lia.
  apply IZR_le in Hmin. lra.
Qed.

(** X14: the normaliser is non-decreasing over the whole line, across the
    change of formula at zero, and so is the pass: a larger raw signal,
    more carriers or a higher sentiment never lower the final index.
    Carriers beyond four add nothing. *)
Theorem final_index_monotone (raw raw' : R) (carriers carriers' : Z)
    (us_military idf_alert : string) (sentiment sentiment' : R) :
  raw <= raw' -> (carriers <= carriers')%Z -> sentiment <= sentiment' ->
  normalize_market raw <= normalize_market raw' /\
  final_index (normalize_market raw)
              (calculate_geo_score carriers us_military idf_alert sentiment)
  <= final_index (normalize_market raw')
                 (calculate_geo_score carriers' us_military idf_alert sentiment') /\
  ((4 <= carriers)%Z ->
   calculate_geo_score carriers' us_military idf_alert sentiment
   = calculate_geo_score carriers us_military idf_alert sentiment).
Proof.
  intros Hraw Hc Hs.
  pose proof (normalize_market_monotone raw raw' Hraw) as Hnorm.
  pose proof (calculate_geo_score_monotone carriers carriers' us_military
                idf_alert sentiment sentiment' Hc Hs) as Hgeo.
  split; [exact Hnorm | split].
  - rewrite !final_index_R. lra.
  - intros Hfour. rewrite !calculate_geo_score_R.
    rewrite !Z.min_r by lia. reflexivity.
Qed.

Lemma final_index_monotone_witness :
  normalize_market (F := R) (-2) <= normalize_market (F := R) 3 /\
  final_index (normalize_market (-2)) (calculate_geo_score 4 "High" "Low" 5)
  <= final_index (normalize_market 3) (calculate_geo_score 6 "High" "Low" 7) /\
  ((4 <= 4)%Z ->
   calculate_geo_score (F := R) 6 "High" "Low" 5
   = calculate_geo_score (F := R) 4 "High" "Low" 5).
Proof.
  apply (final_index_monotone (-2) 3 4 6 "High" "Low" 5 7); [lra | lia | lra].
Defined.

(** ** The geopolitical panel *)

Lemma geo_rows_maxv (carriers : Z) (us_military idf_alert : string)
    (sentiment : R) (title : string) (score maxv : R) :
  (title, score, maxv) ∈ geo_rows carriers us_military idf_alert sentiment ->
  0 < maxv.
Proof.
  intros Hrow. unfold geo_rows in Hrow.
  repeat (apply elem_of_cons in Hrow as [[= _ _ ->] | Hrow]; [on_reals; lra |]).
  apply elem_of_nil in Hrow as [].
Qed.

(** X15: the four scores of the panel add up to the geopolitical score
    that enters the index. *)
Theorem geo_rows_sum (carriers : Z) (us_military idf_alert : string)
    (sentiment : R) :
  Rsum (map (fun row => row.1.2)
            (geo_rows carriers us_military idf_alert sentiment))
  = calculate_geo_score carriers us_military idf_alert sentiment.
Proof.
  rewrite calculate_geo_score_R. unfold geo_rows, military_score, idf_score.
  cbn [map fst snd Rsum fold_right]. on_reals. lra.
Qed.

Lemma bar_width_R (score maxv : R) :
  bar_width score maxv = Rmin (score / maxv * 100) 100.
Proof. unfold bar_width. apply py_min_Rmin. Qed.

(** X16: every row of the panel can be drawn (no maximum is zero); its bar
    is never wider than 100 percent, and its colour goes with the width of
    the bar: green under 30, yellow from 30, orange from 60, red from
    85. *)
Theorem geo_card_follows_width (carriers : Z) (us_military idf_alert : string)
    (sentiment : R) (title : string) (score maxv : R) :
  (title, score, maxv) ∈ geo_rows carriers us_military idf_alert sentiment ->
  exists color width,
    geo_card score maxv = Some (color, width) /\
    width <= 100 /\
    (color = "#10b981" <-> width < 30) /\
    (color = "#facc15" <-> 30 <= width < 60) /\
    (color = "#fb923c" <-> 60 <= width < 85) /\
    (color = "#ef4444" <-> 85 <= width).
Proof.
  intros Hrow. pose proof (geo_rows_maxv _ _ _ _ _ _ _ Hrow) as Hmax.
  unfold geo_card. rewrite get_progress_color_R by lra.
  eexists _, _. split; [reflexivity |].
  rewrite bar_width_R. set (ratio := score / maxv).
  unfold Rmin.
  destruct (Rle_dec (ratio * 100) 100), (Rlt_dec ratio 0.3), (Rlt_dec ratio 0.6),
    (Rlt_dec ratio 0.85);
    repeat split; intros; try lra; try reflexivity; discriminate.
Qed.

Lemma geo_card_follows_width_witness :
  exists color width,
    geo_card (F := R) 32 40 = Some (color, width) /\
    width <= 100 /\
    (color = "#10b981" <-> width < 30) /\
    (color = "#facc15" <-> 30 <= width < 60) /\
    (color = "#fb923c" <-> 60 <= width < 85) /\
    (color = "#ef4444" <-> 85 <= width).
Proof.
  refine (geo_card_follows_width 2 "Extreme" "High" 8.5 "US Military" 32 40 _).
  unfold geo_rows. rewrite !elem_of_cons. right. left. reflexivity.
Defined.

(** ** The session state *)

Lemma reset_step {V : Type} (state : gmap string V) (key : string) :
  (if bool_decide (is_Some (state !! key)) then delete key state else state)
  = delete key state.
Proof.
  destruct (decide (is_Some (state !! key))) as [Hin | Hout].
  - rewrite bool_decide_eq_true_2 by exact Hin. reflexivity.
  - rewrite bool_decide_eq_false_2 by exact Hout.
    symmetry. apply delete_id. apply eq_None_not_Some. exact Hout.
Qed.

Lemma reset_deletes {V : Type} (session_state : gmap string V) :
  reset session_state =
    delete "tf" (delete "sentiment" (delete "idf_alert"
      (delete "us_military" (delete "carriers" session_state)))).
Proof.
  unfold reset, reset_keys. cbn [fold_left]. rewrite !reset_step. reflexivity.
Qed.

Lemma reset_lookup {V : Type} (session_state : gmap string V) (key : string) :
  reset session_state !! key =
    if bool_decide (key ∈ reset_keys) then None else session_state !! key.
Proof.
  rewrite reset_deletes.
  destruct (decide (key ∈ reset_keys)) as [Hin | Hout].
  - rewrite bool_decide_eq_true_2 by exact Hin. unfold reset_keys in Hin.
    repeat (apply elem_of_cons in Hin as [-> | Hin];
            [rewrite ?lookup_delete_eq;
             repeat (rewrite lookup_delete_ne by done; rewrite ?lookup_delete_eq);
             reflexivity |]).
    apply elem_of_nil in Hin as [].
  - rewrite bool_decide_eq_false_2 by exact Hout.
    unfold reset_keys in Hout. rewrite !elem_of_cons, elem_of_nil in Hout.
    rewrite !lookup_delete_ne by (intros <-; tauto). reflexivity.
Qed.

(** X17: the reset removes the five widget keys and touches no other key
    of the session state; a second reset changes nothing more. *)
Theorem reset_removes_widget_keys {V : Type} (session_state : gmap string V)
    (key : string) :
  (key ∈ reset_keys -> reset session_state !! key = None) /\
  (key ∉ reset_keys -> reset session_state !! key = session_state !! key) /\
  reset (reset session_state) = reset session_state.
Proof.
  split; [| split].
  - intros Hin. rewrite reset_lookup, bool_decide_eq_true_2 by exact Hin.
    reflexivity.
  - intros Hout. rewrite reset_lookup, bool_decide_eq_false_2 by exact Hout.
    reflexivity.
  - apply map_eq. intros k. rewrite !reset_lookup.
    destruct (bool_decide (k ∈ reset_keys)); reflexivity.
Qed.

Lemma reset_removes_widget_keys_witness :
  reset ({[ "tf" := 7%Z; "zoom" := 3%Z ]} : gmap string Z) !! "tf" = None /\
  reset ({[ "tf" := 7%Z; "zoom" := 3%Z ]} : gmap string Z) !! "zoom" = Some 3%Z.
Proof.
  split.
  - apply (reset_removes_widget_keys _ "tf"). compute_done.
  - refine (eq_trans
              (proj1 (proj2 (reset_removes_widget_keys _ "zoom")) _) _).
    + compute_done.
    + reflexivity.
Defined.

Lemma button_type_primary {F : Type} (tf : session_value F) (key : string) :
  button_type tf key = "primary" <-> tf = SStr key.
Proof.
  unfold button_type. destruct tf as [z | s | x]; try (split; intros; discriminate).
  destruct (String.eqb_spec s key) as [-> | Hne].
  - split; reflexivity.
  - split; [intros; discriminate | intros [= Heq]; contradiction].
Qed.

(** X18: after a timeframe button is pressed the next run reads that
    timeframe and marks that button, and no other, as primary; after a
    reset the run reads "1d" again and the primary button is that of one
    day. *)
Theorem timeframe_selection {F : Type} `{PyNum F}
    (session_state : gmap string (session_value F)) (pressed key : string) :
  selected_tf (select_tf pressed session_state) = SStr pressed /\
  (button_type (selected_tf (select_tf pressed session_state)) key = "primary"
   <-> key = pressed) /\
  selected_tf (reset (select_tf pressed session_state)) = SStr "1d" /\
  (button_type (selected_tf (reset (select_tf pressed session_state))) key
   = "primary" <-> key = "1d").
Proof.
  assert (Hsel : selected_tf (select_tf pressed session_state) = SStr pressed).
  { unfold selected_tf, select_tf. rewrite lookup_insert_eq. reflexivity. }
  assert (Hreset : selected_tf (reset (select_tf pressed session_state))
                   = SStr "1d").
  { unfold selected_tf. rewrite reset_lookup.
    rewrite bool_decide_eq_true_2 by compute_done. reflexivity. }
  rewrite Hsel, Hreset, !button_type_primary.
  repeat split; try congruence; intros ->; reflexivity.
Qed.

(** ** The gauge *)

(** X19: the steps of the gauge and the level agree: an index inside the
    i-th step has the i-th level, and every index from 0 up to, but not
    including, 100 is inside one step. *)
Theorem gauge_steps_match_level (f : R) :
  (forall i lo hi color,
     gauge_steps !! i = Some (lo, hi, color) -> lo <= f < hi ->
     level_texts !! i = Some (level_text f)) /\
  (0 <= f < 100 ->
   exists i lo hi color,
     gauge_steps !! i = Some (lo, hi, color) /\ lo <= f < hi).
Proof.
  split.
  - intros i lo hi color Hstep Hin. unfold level_text. rewrite level_R.
    unfold gauge_steps in Hstep.
    destruct i as [|[|[|[|i]]]]; cbn in Hstep; try discriminate;
      injection Hstep as <- <- <-; on_reals;
      destruct (Rlt_dec f 30), (Rlt_dec f 60), (Rlt_dec f 80);
      try lra; reflexivity.
  - intros Hf. unfold gauge_steps.
    destruct (Rlt_dec f 30);
      [exists 0%nat; do 3 eexists; split; [reflexivity | on_reals; lra] |].
    destruct (Rlt_dec f 60);
      [exists 1%nat; do 3 eexists; split; [reflexivity | on_reals; lra] |].
    destruct (Rlt_dec f 80);
      [exists 2%nat; do 3 eexists; split; [reflexivity | on_reals; lra] |].
    exists 3%nat; do 3 eexists; split; [reflexivity | on_reals; lra].
Qed.

Lemma gauge_steps_match_level_witness :
  level_texts !! 1%nat = Some (level_text (F := R) 39.4).
Proof.
  refine (proj1 (gauge_steps_match_level 39.4) 1%nat 30 60
            "rgba(250,204,21,0.55)" _ _).
  - reflexivity.
  - lra.
Defined.
